(** * doctor: request dispatch and route synthesis

    A shallow embedding of [doctor/flask.py] (the two dispatchers
    [handle_http_v3] and [handle_http], with their exception translation)
    and of [doctor/routing.py] ([create_http_method], [create_routes]),
    together with the properties the specification states about them.

    Python objects are modelled by records and inductive types, dictionaries
    by insertion-ordered association lists (the order of a Python dict is
    observable in the coercion loop), the process environment and the
    application configuration by finite maps, and the control flow of
    [try]/[except] by a small state-and-exception monad whose state holds
    the log and the trace of the calls made to the logic function. *)

From Stdlib Require Import String Ascii List ZArith Bool Lia.
From stdpp Require Import functions.
From stdpp Require Import base decidable option list strings pretty gmap.
Import ListNotations.

Set Warnings "-register-all".

Local Open Scope string_scope.
Local Open Scope list_scope.

(** ** The Python runtime, as far as the dispatchers use it *)

Module Py.

(** Values that travel in requests and responses (JSON-like). *)
Inductive value : Type :=
| VNone
| VBool (b : bool)
| VInt (n : Z)
| VStr (s : string)
| VList (l : list value)
| VDict (d : list (string * value)).

(** A [dict] with string keys: association list in insertion order, keys
    unique.  Polymorphic in the values, since [Signature.parameters] is an
    ordered mapping too. *)
Abbreviation odict A := (list (string * A)).
Abbreviation dict := (list (string * value)).

(** [d.get(k)] *)
Fixpoint dict_get {A} (k : string) (d : odict A) : option A :=
  match d with
  | [] => None
  | (k', v) :: d' => if String.eqb k k' then Some v else dict_get k d'
  end.

(** [k in d] *)
Definition dict_mem {A} (k : string) (d : odict A) : bool :=
  match dict_get k d with Some _ => true | None => false end.

(** [d[k] = v]: an existing key keeps its position, a new key goes last. *)
Fixpoint dict_setitem {A} (k : string) (v : A) (d : odict A) : odict A :=
  match d with
  | [] => [(k, v)]
  | (k', v') :: d' =>
      if String.eqb k k' then (k, v) :: d' else (k', v') :: dict_setitem k v d'
  end.

(** [d.update(kw)], keyword by keyword *)
Definition dict_update {A} (d kw : odict A) : odict A :=
  fold_left (fun acc kv => dict_setitem (fst kv) (snd kv) acc) kw d.

Definition keys {A} (d : odict A) : list string := map fst d.

(** Truth value of an object, as [if x:] and [x or y] see it. *)
Definition truthy (v : value) : bool :=
  match v with
  | VNone => false
  | VBool b => b
  | VInt n => negb (Z.eqb n 0)
  | VStr s => negb (String.eqb s "")
  | VList l => match l with [] => false | _ => true end
  | VDict d => match d with [] => false | _ => true end
  end.

(** [bool(s)] for a string. *)
Definition str_truthy (s : string) : bool := negb (String.eqb s "").

(** [s.upper()] on ASCII letters. *)
Definition upper_ascii (c : ascii) : ascii :=
  let n := nat_of_ascii c in
  if (97 <=? n)%nat && (n <=? 122)%nat then ascii_of_nat (n - 32) else c.

Fixpoint upper (s : string) : string :=
  match s with
  | EmptyString => EmptyString
  | String c s' => String (upper_ascii c) (upper s')
  end.

(** [s[:n]] for [n >= 0]. *)
Definition prefix_slice (n : nat) (s : string) : string := substring 0 n s.

(** Classes.  A class is known by its name and its direct bases; two
    classes with the same name are the same class. *)
Inductive pyclass : Type :=
| PyClass (name : string) (bases : list pyclass).

Definition class_name (c : pyclass) : string :=
  match c with PyClass n _ => n end.

(** The names of a class and of all the classes it derives from. *)
Fixpoint ancestors (c : pyclass) : list string :=
  match c with
  | PyClass n bs => n :: List.flat_map ancestors bs
  end.

(** [issubclass(c, d)] *)
Definition issubclass (c d : pyclass) : bool :=
  bool_decide (class_name d ∈ ancestors c).

Definition BaseException : pyclass := PyClass "BaseException" [].
Definition Exception : pyclass := PyClass "Exception" [BaseException].
Definition TypeError : pyclass := PyClass "TypeError" [Exception].
Definition LookupError : pyclass := PyClass "LookupError" [Exception].
Definition KeyError : pyclass := PyClass "KeyError" [LookupError].
Definition KeyboardInterrupt : pyclass :=
  PyClass "KeyboardInterrupt" [BaseException].

(** What a logic function returns: a plain value, or a [Response]
    envelope ([doctor/response.py]) carrying a content and headers. *)
Inductive pyobj : Type :=
| Raw (v : value)
| Response (content : value) (headers : list (string * string)).

(** The six exception classes [doctor/flask.py] declares below
    [SchematicHTTPException]. *)
Inductive http_class : Type :=
| HTTP400 | HTTP401 | HTTP403 | HTTP404 | HTTP409 | HTTP500.

(** Exception objects.  [Exc cls msg errors] is an instance of [cls] built
    from the message [msg], whose [errors] attribute, when it has one, is
    [errors].  [SchematicHTTP c description errobj] is an instance of one of
    the classes of [doctor/flask.py]; its description is the exception it
    was built from, or a string. *)
Inductive pyexc : Type :=
| Exc (cls : pyclass) (msg : string) (errors : option value)
| SchematicHTTP (c : http_class) (description : pyexc + string)
    (errobj : option value).

(** ** Outcomes and the dispatch monad *)

Inductive outcome (A : Type) : Type :=
| Ok (a : A)
| Raise (e : pyexc).
Arguments Ok {A} a.
Arguments Raise {A} e.

(** [logging.warning('Response to %s %s does not validate: %s.', method,
    path, response_str, exc_info=e)] and [logging.exception(e)]. *)
Inductive log_record : Type :=
| LogWarning (method path response_str : string) (exc_info : pyexc)
| LogException (e : pyexc).

(** One call made to a logic function: its name, the positional and the
    keyword arguments it was given. *)
Record call_record : Type := Call {
  callee : string;
  call_args : list value;
  call_kwargs : dict
}.

Record state : Type := State {
  log : list log_record;
  calls : list call_record
}.

Definition M (A : Type) : Type := state -> outcome A * state.

Definition ret {A} (a : A) : M A := fun st => (Ok a, st).

Definition bind {A B} (m : M A) (k : A -> M B) : M B :=
  fun st =>
    match m st with
    | (Ok a, st') => k a st'
    | (Raise e, st') => (Raise e, st')
    end.

(** [raise e] *)
Definition raise {A} (e : pyexc) : M A := fun st => (Raise e, st).

(** [try: body  except BaseException as e: handler(e)]; a handler that
    matches no clause re-raises [e] itself. *)
Definition try_except {A} (body : M A) (handler : pyexc -> M A) : M A :=
  fun st =>
    match body st with
    | (Ok a, st') => (Ok a, st')
    | (Raise e, st') => handler e st'
    end.

(** A call that has no effect on the log or the trace. *)
Definition lift {A} (o : outcome A) : M A := fun st => (o, st).

Definition emit (r : log_record) : M unit :=
  fun st => (Ok tt, State (log st ++ [r]) (calls st)).

Definition record_call (c : call_record) : M unit :=
  fun st => (Ok tt, State (log st) (calls st ++ [c])).

(** ** Calls with positional arguments *)

Definition quoted (s : string) : string := "'" +:+ s +:+ "'".

Fixpoint comma_and (names : list string) : string :=
  match names with
  | [] => ""
  | [z] => "and " +:+ quoted z
  | a :: rest => quoted a +:+ ", " +:+ comma_and rest
  end.

(** The names of the missing parameters, as the interpreter lists them. *)
Definition missing_names (names : list string) : string :=
  match names with
  | [] => ""
  | [a] => quoted a
  | [a; b] => quoted a +:+ " and " +:+ quoted b
  | _ => comma_and names
  end.

Definition plural (n : nat) : string := if (n =? 1)%nat then "" else "s".

(** The call of a function all of whose parameters are positional and have
    no default: unless there is one argument per parameter the call raises
    [TypeError], and the body does not run. *)
Definition call_positional {A B} (fname : string) (formals : list string)
    (body : list A -> M B) (actuals : list A) : M B :=
  let given := length actuals in
  let declared := length formals in
  if (given =? declared)%nat then body actuals
  else if (given <? declared)%nat then
    let missing := drop given formals in
    raise (Exc TypeError
             (fname +:+ "() missing " +:+ pretty (length missing)
              +:+ " required positional argument" +:+ plural (length missing)
              +:+ ": " +:+ missing_names missing)
             None)
  else
    raise (Exc TypeError
             (fname +:+ "() takes " +:+ pretty declared
              +:+ " positional argument" +:+ plural declared +:+ " but "
              +:+ pretty given
              +:+ (if (given =? 1)%nat then " was given" else " were given"))
             None).

End Py.
Import Py.

Declare Scope py_scope.
Delimit Scope py_scope with py.
Notation "'do' x <- m ; k" := (bind m (fun x => k))
  (at level 10, x name, m at level 100, k at level 200) : py_scope.
Notation "'exec' m ; k" := (bind m (fun _ => k))
  (at level 10, m at level 100, k at level 200) : py_scope.
Local Open Scope py_scope.

(** ** doctor/errors.py and doctor/constants.py *)

(** Modelled from the spec: [doctor/errors.py] is not among the sources.
    Section 7 of the specification lists the error kinds as a closed set of
    separate kinds, so each one is a class of its own that derives from
    [Exception] and from none of the others. *)
Module errors.
Definition ForbiddenError : pyclass := PyClass "ForbiddenError" [Exception].
Definition ImmutableError : pyclass := PyClass "ImmutableError" [Exception].
Definition InvalidValueError : pyclass :=
  PyClass "InvalidValueError" [Exception].
Definition ParseError : pyclass := PyClass "ParseError" [Exception].
Definition NotFoundError : pyclass := PyClass "NotFoundError" [Exception].
Definition SchemaValidationError : pyclass :=
  PyClass "SchemaValidationError" [Exception].
Definition TypeSystemError : pyclass := PyClass "TypeSystemError" [Exception].
Definition UnauthorizedError : pyclass :=
  PyClass "UnauthorizedError" [Exception].
End errors.

Module constants.
(** Modelled from the spec: [doctor/constants.py] is not among the
    sources.  Section 4.2, step 1: the verbs that conventionally carry a
    JSON body are POST, PUT and PATCH. *)
Definition HTTP_METHODS_WITH_JSON_BODY : list string :=
  ["POST"; "PUT"; "PATCH"].
End constants.

(** ** Function objects: parameters, signatures, logic functions *)

Module utils.

(** [doctor.utils.Params], as the tests build it. *)
Record Params : Type := mkParams {
  all : list string;
  required : list string;
  optional : list string;
  logic : list string
}.

(** An annotation is a callable class: applied to a raw value it returns
    the coerced value or raises.  [is_supertype] tells whether it is one of
    the validating types of [doctor.types]. *)
Record Annotation : Type := mkAnnotation {
  is_supertype : bool;
  construct : value -> outcome value
}.

(** [inspect.Parameter]; [None] stands for [Parameter.empty]. *)
Record SigParameter : Type := mkParameter {
  annotation : option Annotation;
  param_default : option value
}.

(** [inspect.Signature]; [parameters] is an ordered mapping. *)
Record Signature : Type := mkSignature {
  parameters : odict SigParameter;
  return_annotation : option Annotation
}.

(** A logic function once [routing.HTTPMethod] has bound it: its name, the
    attributes the binding attaches to it, and what calling it with
    positional and keyword arguments gives. *)
Record logic_fn : Type := mkLogic {
  __name__ : string;
  _doctor_params : Params;
  _doctor_signature : Signature;
  _doctor_allowed_exceptions : option (list pyclass);
  _doctor_title : option string;
  __call__ : list value -> dict -> outcome pyobj
}.

End utils.
Import utils.

(** ** doctor/flask.py *)

Module flask.
Import errors constants.

(** [flask.request]: the dispatchers read the mimetype, the verb, the
    path, the parsed JSON body (a JSON object) and the flat mapping of the
    query and form values. *)
Record Request : Type := mkRequest {
  mimetype : string;
  method : string;
  path : string;
  json : dict;
  values : dict
}.

(** What the dispatchers read from the process besides their arguments:
    [flask.request], [current_app.config] and [os.environ]. *)
Record Globals : Type := mkGlobals {
  request : Request;
  config : gmap string value;
  environ : gmap string string
}.

(** An instance of a [flask_restful.Resource] class; the dispatchers
    receive it and do not look at it. *)
Inductive resource : Type := ResourceInstance (class_of : string).

Definition STATUS_CODE_MAP : gmap string nat :=
  <["POST" := 201]> (<["DELETE" := 204]> ∅).

(** [STATUS_CODE_MAP.get(request.method, 200)] *)
Definition status_code (req : Request) : nat :=
  default 200 (STATUS_CODE_MAP !! method req).

(** What a dispatcher returns to the framework. *)
Inductive reply : Type :=
| Reply2 (body : value) (status : nat)
| Reply3 (body : value) (status : nat) (headers : list (string * string)).

(** The classes of werkzeug and the six classes declared on top of them. *)
Definition HTTPException : pyclass := PyClass "HTTPException" [Exception].
Definition SchematicHTTPException : pyclass :=
  PyClass "SchematicHTTPException" [HTTPException].

Definition werkzeug_base (c : http_class) : pyclass :=
  match c with
  | HTTP400 => PyClass "BadRequest" [HTTPException]
  | HTTP401 => PyClass "Unauthorized" [HTTPException]
  | HTTP403 => PyClass "Forbidden" [HTTPException]
  | HTTP404 => PyClass "NotFound" [HTTPException]
  | HTTP409 => PyClass "Conflict" [HTTPException]
  | HTTP500 => PyClass "InternalServerError" [HTTPException]
  end.

Definition http_class_name (c : http_class) : string :=
  match c with
  | HTTP400 => "HTTP400Exception"
  | HTTP401 => "HTTP401Exception"
  | HTTP403 => "HTTP403Exception"
  | HTTP404 => "HTTP404Exception"
  | HTTP409 => "HTTP409Exception"
  | HTTP500 => "HTTP500Exception"
  end.

Definition http_pyclass (c : http_class) : pyclass :=
  PyClass (http_class_name c) [SchematicHTTPException; werkzeug_base c].


Definition HTTP400Exception (description : pyexc + string)
    (errobj : option value) : pyexc :=
  SchematicHTTP HTTP400 description errobj.
Definition HTTP401Exception (description : pyexc + string) : pyexc :=
  SchematicHTTP HTTP401 description None.
Definition HTTP403Exception (description : pyexc + string) : pyexc :=
  SchematicHTTP HTTP403 description None.
Definition HTTP404Exception (description : pyexc + string) : pyexc :=
  SchematicHTTP HTTP404 description None.
Definition HTTP409Exception (description : pyexc + string) : pyexc :=
  SchematicHTTP HTTP409 description None.
Definition HTTP500Exception (description : pyexc + string) : pyexc :=
  SchematicHTTP HTTP500 description None.

(** [type(e)] *)
Definition exc_class (e : pyexc) : pyclass :=
  match e with
  | Exc cls _ _ => cls
  | SchematicHTTP c _ _ => http_pyclass c
  end.

Definition isinstance (e : pyexc) (cls : pyclass) : bool :=
  issubclass (exc_class e) cls.

(** [getattr(e, 'errors', None)] *)
Definition getattr_errors (e : pyexc) : option value :=
  match e with
  | Exc _ _ errors => errors
  | SchematicHTTP _ _ _ => None
  end.

(** [current_app.config.get('DEBUG', False)], as a condition. *)
Definition debug (g : Globals) : bool :=
  truthy (default (VBool false) (config g !! "DEBUG")).

Definition should_raise_response_validation_errors (g : Globals) : bool :=
  debug g
  || match environ g !! "RAISE_RESPONSE_VALIDATION_ERRORS" with
     | Some s => str_truthy s
     | None => false
     end.

(** [allowed_exceptions and any(isinstance(e, cls) for cls in
    allowed_exceptions)] *)
Definition allowed (e : pyexc) (allowed_exceptions : option (list pyclass))
    : bool :=
  match allowed_exceptions with
  | None => false
  | Some l => existsb (isinstance e) l
  end.

Section Dispatch.

(** [str] (and [six.text_type]) of a response object: the built-in
    conversion, not part of the repository. *)
Variable str : pyobj -> string.

(** [constants.MAX_RESPONSE_LENGTH]; [doctor/constants.py] is not among
    the sources, and the specification gives it only as about 8 KB. *)
Variable MAX_RESPONSE_LENGTH : nat.

(** JSON schema validators of the schema mode: objects of an external
    library. *)
Variable validator : Type.

(** The [ResourceSchema] object of the schema mode.  Its methods
    [_parse_params] and [validate] come from [doctor/schema.py], which is
    not among the sources. *)
Record ResourceSchema : Type := mkResourceSchema {
  _parse_params : dict -> value -> outcome dict;
  validate : value -> validator -> outcome unit;
  raise_response_validation_errors : bool
}.

(** [doctor.utils.exec_params], not among the sources: it calls the
    logic function with the positional arguments and (some of) the
    keyword arguments. *)
Variable exec_params : logic_fn -> list value -> dict -> outcome pyobj.

(** The mapping the parameters are read from. *)
Definition json_request (req : Request) : bool :=
  String.eqb (mimetype req) "application/json"
  && bool_decide (method req ∈ HTTP_METHODS_WITH_JSON_BODY).

(** [{k: v for k, v in request_params.items() if k in all_params}] *)
Definition filter_params (all_params : list string) (request_params : dict)
    : dict :=
  List.filter (fun kv => bool_decide (fst kv ∈ all_params)) request_params.

(** The loop over [logic._doctor_params.required]. *)
Fixpoint check_required (required : list string) (params : dict)
    : outcome unit :=
  match required with
  | [] => Ok tt
  | r :: rest =>
      if dict_mem r params then check_required rest params
      else Raise (Exc InvalidValueError (r +:+ " is required.") None)
  end.

(** The loop over [params.items()] that replaces each value by its
    annotation applied to it. *)
Fixpoint coerce (sig : Signature) (items : dict) (params : dict)
    : outcome dict :=
  match items with
  | [] => Ok params
  | (name, v) :: rest =>
      match dict_get name (parameters sig) with
      | None => Raise (Exc KeyError name None)
      | Some p =>
          match annotation p with
          | None => Raise (Exc TypeError "_empty() takes no arguments" None)
          | Some a =>
              match construct a v with
              | Ok v' => coerce sig rest (dict_setitem name v' params)
              | Raise e => Raise e
              end
          end
      end
  end.

(** The call of [logic] on the unpacked [args] and [params], recorded in
    the trace. *)
Definition call_logic (lg : logic_fn) (args : list value) (params : dict)
    : M pyobj :=
  exec record_call (Call (__name__ lg) args params);
  lift (__call__ lg args params).

(** The text of the response in the warning. *)
Definition clip (response_str : string) : string :=
  if (MAX_RESPONSE_LENGTH <? String.length response_str)%nat
  then prefix_slice MAX_RESPONSE_LENGTH response_str +:+ "..."
  else response_str.

(** [response.content] for an envelope, the response itself otherwise. *)
Definition unwrap (response : pyobj) : value :=
  match response with
  | Response content _ => content
  | Raw v => v
  end.

(** The last two statements of the [try] block. *)
Definition shape (req : Request) (response : pyobj) : reply :=
  match response with
  | Response content headers => Reply3 content (status_code req) headers
  | Raw v => Reply2 v (status_code req)
  end.

(** Response validation of [handle_http_v3]. *)
Definition validate_response_v3 (g : Globals) (sig : Signature)
    (response : pyobj) : M unit :=
  match return_annotation sig with
  | None => ret tt
  | Some ann =>
      let _response := unwrap response in
      try_except
        (do _ <- lift (construct ann _response); ret tt)
        (fun e =>
           if isinstance e TypeSystemError then
             let response_str := clip (str (Raw _response)) in
             exec emit (LogWarning (method (request g)) (path (request g))
                          response_str e);
             if should_raise_response_validation_errors g then raise e
             else ret tt
           else raise e)
  end.

(** The [try] block of [handle_http_v3]. *)
Definition body_v3 (g : Globals) (args : list value) (kwargs : dict)
    (lg : logic_fn) : M reply :=
  let request_params :=
    if json_request (request g) then json (request g)
    else values (request g) in
  let all_params := all (_doctor_params lg) in
  let params := filter_params all_params request_params in
  let params := dict_update params kwargs in
  exec lift (check_required (required (_doctor_params lg)) params);
  let sig := _doctor_signature lg in
  do params <- lift (coerce sig params params);
  do response <- call_logic lg args params;
  exec validate_response_v3 g sig response;
  ret (shape (request g) response).

Definition handle_http_v3 (g : Globals) (handler : resource)
    (args : list value) (kwargs : dict) (lg : logic_fn)
    (allowed_exceptions : option (list pyclass)) : M reply :=
  try_except (body_v3 g args kwargs lg)
    (fun e =>
       if isinstance e InvalidValueError || isinstance e TypeSystemError
       then raise (HTTP400Exception (inl e) (getattr_errors e))
       else if isinstance e UnauthorizedError
       then raise (HTTP401Exception (inl e))
       else if isinstance e ForbiddenError
       then raise (HTTP403Exception (inl e))
       else if isinstance e NotFoundError
       then raise (HTTP404Exception (inl e))
       else if isinstance e ImmutableError
       then raise (HTTP409Exception (inl e))
       else if isinstance e Exception then
         if debug g then raise e
         else if allowed e allowed_exceptions then raise e
         else
           exec emit (LogException e);
           raise (HTTP500Exception (inr "Uncaught error in logic function"))
       else raise e).

(** The call of [exec_params] on [logic], the unpacked [args] and the
    unpacked keyword arguments, recorded in the trace. *)
Definition call_exec_params (lg : logic_fn) (args : list value)
    (kwargs : dict) : M pyobj :=
  exec record_call (Call (__name__ lg) args kwargs);
  lift (exec_params lg args kwargs).

(** Response validation of [handle_http]. *)
Definition validate_response (g : Globals) (schema : ResourceSchema)
    (response_validator : option validator) (response : pyobj) : M unit :=
  match response_validator with
  | None => ret tt
  | Some rv =>
      let _response := unwrap response in
      try_except
        (lift (validate schema _response rv))
        (fun e =>
           if isinstance e SchemaValidationError then
             let response_str := clip (str response) in
             exec emit (LogWarning (method (request g)) (path (request g))
                          response_str e);
             if raise_response_validation_errors schema then raise e
             else ret tt
           else raise e)
  end.

(** The [try] block of [handle_http]. *)
Definition body_http (g : Globals) (schema : ResourceSchema)
    (args : list value) (kwargs : dict) (lg : logic_fn)
    (request_schema : value) (request_validator : option validator)
    (response_validator : option validator) : M reply :=
  do response <-
    (if truthy request_schema then
       do params <-
         (if json_request (request g) then ret (json (request g))
          else lift (_parse_params schema (values (request g))
                       request_schema));
       let params := dict_update params kwargs in
       exec (match request_validator with
             | Some rv => lift (validate schema (VDict params) rv)
             | None => ret tt
             end);
       call_exec_params lg args params
     else call_exec_params lg args kwargs);
  exec validate_response g schema response_validator response;
  ret (shape (request g) response).

Definition handle_http (g : Globals) (schema : ResourceSchema)
    (handler : resource) (args : list value) (kwargs : dict)
    (lg : logic_fn) (request_schema : value)
    (request_validator response_validator : option validator)
    (allowed_exceptions : option (list pyclass)) : M reply :=
  try_except
    (body_http g schema args kwargs lg request_schema request_validator
       response_validator)
    (fun e =>
       if isinstance e InvalidValueError || isinstance e ParseError
          || isinstance e SchemaValidationError
       then raise (HTTP400Exception (inl e) (getattr_errors e))
       else if isinstance e UnauthorizedError
       then raise (HTTP401Exception (inl e))
       else if isinstance e ForbiddenError
       then raise (HTTP403Exception (inl e))
       else if isinstance e NotFoundError
       then raise (HTTP404Exception (inl e))
       else if isinstance e ImmutableError
       then raise (HTTP409Exception (inl e))
       else if isinstance e Exception then
         if debug g then raise e
         else if allowed e allowed_exceptions then raise e
         else
           exec emit (LogException e);
           raise (HTTP500Exception (inr "Uncaught error in logic function"))
       else raise e).

(** Names for the records, the states and the mapping that the
    properties below talk about. *)

(** The warning a failed response validation logs. *)
Definition warning_v3 (g : Globals) (response : pyobj) (e : pyexc)
    : log_record :=
  LogWarning (method (request g)) (path (request g))
    (clip (str (Raw (unwrap response)))) e.

Definition warning_http (g : Globals) (response : pyobj) (e : pyexc)
    : log_record :=
  LogWarning (method (request g)) (path (request g))
    (clip (str response)) e.

Definition logged (r : log_record) (st : state) : state :=
  State (log st ++ [r]) (calls st).

Definition called (c : call_record) (st : state) : state :=
  State (log st) (calls st ++ [c]).

(** The mapping [handle_http_v3] checks and coerces. *)
Definition merged_v3 (g : Globals) (kwargs : dict) (lg : logic_fn) : dict :=
  dict_update
    (filter_params (all (_doctor_params lg))
       (if json_request (request g) then json (request g)
        else values (request g)))
    kwargs.

(** The keyword arguments [handle_http] gives to [exec_params], or the
    exception raised while it prepares them. *)
Definition kwargs_http (g : Globals) (schema : ResourceSchema)
    (kwargs : dict) (request_schema : value)
    (request_validator : option validator) : outcome dict :=
  if truthy request_schema then
    match (if json_request (request g) then Ok (json (request g))
           else _parse_params schema (values (request g)) request_schema) with
    | Raise e => Raise e
    | Ok params =>
        let params := dict_update params kwargs in
        match request_validator with
        | None => Ok params
        | Some rv =>
            match validate schema (VDict params) rv with
            | Ok _ => Ok params
            | Raise e => Raise e
            end
        end
    end
  else Ok kwargs.

End Dispatch.

End flask.

(** ** doctor/routing.py *)

Module routing.
Import flask.

(** [HTTPMethod.method]: "One of: (delete, get, post, put)". *)
Inductive verb : Type := Delete | Get | Post | Put.

Definition verb_name (v : verb) : string :=
  match v with
  | Delete => "delete"
  | Get => "get"
  | Post => "post"
  | Put => "put"
  end.

(** An [HTTPMethod] instance, with the two attributes [create_routes]
    reads. *)
Record HTTPMethod : Type := mkHTTPMethod {
  method : verb;
  logic : logic_fn
}.

(** [x or y] for an optional string [x]. *)
Definition or_else (x : option string) (y : string) : string :=
  match x with
  | Some s => if str_truthy s then s else y
  | None => y
  end.

(** A class used as the base of a handler.  [init_methods] stands for what
    the class machinery of the framework does when a type is built on the
    base: given the names in the namespace of the new type it gives the
    [methods] list the type is created with, or [None] when the new type
    has no [methods] attribute. *)
Record base_class : Type := mkBase {
  base_name : string;
  init_methods : list string -> option (list string)
}.

Section Synthesis.

Variable str : pyobj -> string.
Variable MAX_RESPONSE_LENGTH : nat.
Variable validator : Type.
Variable exec_params : logic_fn -> list value -> dict -> outcome pyobj.

(** Objects passed to a function as positional arguments. *)
Inductive pyarg : Type :=
| ASchema (s : ResourceSchema validator)
| AResource (h : resource)
| ATuple (t : list value)
| ADict (d : dict)
| AFunction (f : logic_fn)
| AValue (v : value)
| AValidator (v : option validator)
| AClasses (l : option (list pyclass)).

(** The parameters [doctor.flask.handle_http] declares. *)
Definition handle_http_formals : list string :=
  ["schema"; "handler"; "args"; "kwargs"; "logic"; "request_schema";
   "request_validator"; "response_validator"; "allowed_exceptions"].

(** [doctor.flask.handle_http] as the function object [routing.py]
    imports.  Arguments of the expected kinds reach the dispatcher; for an
    object of another kind in some position the model raises at once, and
    no call of [routing.py] gets there. *)
Definition handle_http_object (g : Globals) : list pyarg -> M reply :=
  call_positional "handle_http" handle_http_formals
    (fun actuals =>
       match actuals with
       | [ASchema schema; AResource handler; ATuple args; ADict kwargs;
          AFunction lg; AValue request_schema;
          AValidator request_validator; AValidator response_validator;
          AClasses allowed_exceptions] =>
           handle_http str MAX_RESPONSE_LENGTH validator exec_params g
             schema handler args kwargs lg request_schema
             request_validator response_validator allowed_exceptions
       | _ => raise (Exc TypeError "unsupported argument" None)
       end).

(** The [TypeError] of a call of [handle_http] with four positional
    arguments. *)
Definition four_arguments_for_nine : pyexc :=
  Exc TypeError
    ("handle_http() missing 5 required positional arguments: "
     +:+ "'logic', 'request_schema', 'request_validator', "
     +:+ "'response_validator', and 'allowed_exceptions'")
    None.

(** The function [fn] that [create_http_method] returns:
    [functools.wraps] keeps a reference to [logic]; calling it calls
    [handle_http(handler, args, kwargs, logic)]. *)
Record handler_fn : Type := mkFn {
  __wrapped__ : logic_fn;
  fn : Globals -> resource -> list value -> dict -> M reply
}.

Definition create_http_method (lg : logic_fn) (http_method : string)
    : handler_fn :=
  mkFn lg
    (fun g handler args kwargs =>
       handle_http_object g
         [AResource handler; ATuple args; ADict kwargs; AFunction lg]).

(** Attributes of a handler type. *)
Inductive attr : Type :=
| AStr (s : option string)
| AFunc (f : handler_fn).

(** A handler type: its name, its bases, its namespace and its [methods]
    list when it has one. *)
Record handler_type : Type := mkType {
  type_name : string;
  type_bases : list base_class;
  namespace : odict attr;
  view_methods : option (list string)
}.

(** [type(name, (base,), namespace)] *)
Definition new_type (name : string) (base : base_class)
    (ns : odict attr) : handler_type :=
  mkType name [base] ns (init_methods base (keys ns)).

(** [setattr(handler, http_method, http_func)] *)
Definition setattr (h : handler_type) (k : string) (a : attr)
    : handler_type :=
  mkType (type_name h) (type_bases h) (dict_setitem k a (namespace h))
    (view_methods h).

(** [if hasattr(handler, 'methods'): handler.methods.append(x)] *)
Definition append_method (h : handler_type) (x : string) : handler_type :=
  match view_methods h with
  | Some l =>
      mkType (type_name h) (type_bases h) (namespace h) (Some (l ++ [x]))
  | None => h
  end.

Record Route : Type := mkRoute {
  route : string;
  methods : list HTTPMethod;
  heading : option string;
  base_handler_class : base_class;
  handler_name : option string
}.

(** One turn of the loop over [r.methods]. *)
Definition add_method (r : Route) (handler : option handler_type)
    (m : HTTPMethod) : option handler_type :=
  let lg := logic m in
  let http_method := verb_name (method m) in
  let http_func := create_http_method lg http_method in
  let name := or_else (handler_name r) (__name__ lg) in
  let handler_methods_and_properties :=
    dict_setitem http_method (AFunc http_func)
      [("__name__", AStr (Some name));
       ("_doctor_heading", AStr (heading r))] in
  match handler with
  | None =>
      Some (new_type name (base_handler_class r)
              handler_methods_and_properties)
  | Some h =>
      Some (append_method (setattr h http_method (AFunc http_func))
              (upper http_method))
  end.

Definition create_routes (routes : list Route)
    : list (string * option handler_type) :=
  map (fun r => (route r, fold_left (add_method r) (methods r) None))
    routes.

End Synthesis.

End routing.

(** ** The signature introspector ([doctor.utils.get_params_from_func]) *)

Module introspection.

(** A callable as the introspector sees it: a function with the parameter
    list it declares ([None] when no signature can be recognised), or a
    layer that wraps another callable and refers to it. *)
Inductive callable : Type :=
| Function (name : string) (sig : option Signature)
| Wrapper (target : callable).

(** Follow the wrapped targets down to the function that is wrapped. *)
Fixpoint real_signature (f : callable) : option Signature :=
  match f with
  | Function _ sig => sig
  | Wrapper target => real_signature target
  end.

Definition has_default (p : SigParameter) : bool :=
  match param_default p with Some _ => true | None => false end.

Definition validating (p : SigParameter) : bool :=
  match annotation p with Some a => is_supertype a | None => false end.

(** Modelled from the spec: [doctor/utils.py], which defines
    [get_params_from_func], is not among the sources (only its tests
    are).  Sections 3 and 4.1: [all] is the ordered sequence of the
    parameter names of the real signature, reached through the wrapping
    layers; a parameter is required iff it has no default value and its
    annotation is a recognised validating type; [optional] is the subset
    with a default; [logic] holds the names passed into the function, the
    same as [all]; when no signature is reachable the set is empty. *)
Definition get_params_from_func (f : callable) : Params :=
  match real_signature f with
  | None => mkParams [] [] [] []
  | Some sig =>
      let ps := parameters sig in
      mkParams
        (keys ps)
        (keys (List.filter (fun kp => negb (has_default (snd kp))
                                      && validating (snd kp)) ps))
        (keys (List.filter (fun kp => has_default (snd kp)) ps))
        (keys ps)
  end.

(** Parameter names are unique in a signature. *)
Definition well_formed (f : callable) : Prop :=
  forall sig, real_signature f = Some sig -> NoDup (keys (parameters sig)).

End introspection.

(** ** Objects of the test suite, used to run the definitions *)

Module samples.
Import flask routing introspection.

Definition type_error (msg : string) : pyexc :=
  Exc errors.TypeSystemError msg None.

(** [Name = string('name', min_length=1)] *)
Definition Name : Annotation :=
  mkAnnotation true
    (fun v =>
       match v with
       | VStr s =>
           if String.eqb s "" then
             Raise (type_error "Must have at least 1 characters.")
           else Ok v
       | _ => Raise (type_error "Must be a string.")
       end).

(** [IsAlive = boolean('Is alive?')] *)
Definition IsAlive : Annotation :=
  mkAnnotation true
    (fun v =>
       match v with
       | VBool _ => Ok v
       | VStr "true" => Ok (VBool true)
       | VStr "false" => Ok (VBool false)
       | _ => Raise (type_error "Must be a valid boolean.")
       end).

(** [Foo = string('foo')] *)
Definition Foo : Annotation :=
  mkAnnotation true
    (fun v =>
       match v with
       | VStr _ => Ok v
       | _ => Raise (type_error "Must be a string.")
       end).

(** The built-in [str] used as an annotation. *)
Definition builtin_str : Annotation := mkAnnotation false (fun v => Ok v).

(** [def create_foo(name: Name) -> Foo] *)
Definition create_foo_signature : Signature :=
  mkSignature [("name", mkParameter (Some Name) None)] (Some Foo).

Definition create_foo : logic_fn :=
  mkLogic "create_foo" (mkParams ["name"] ["name"] [] ["name"])
    create_foo_signature None None (fun _ _ => Ok (Raw (VStr ""))).

(** [def get_foos(is_alive: IsAlive=True) -> Foos], here returning a value
    that its return annotation rejects. *)
Definition get_foos : logic_fn :=
  mkLogic "get_foos" (mkParams ["is_alive"] [] ["is_alive"] ["is_alive"])
    (mkSignature
       [("is_alive", mkParameter (Some IsAlive) (Some (VBool true)))]
       (Some Foo))
    None None (fun _ _ => Ok (Raw (VInt 7))).

(** A logic function that answers with an envelope. *)
Definition get_wrapped : logic_fn :=
  mkLogic "get_wrapped" (mkParams [] [] [] []) (mkSignature [] None)
    None None
    (fun _ _ => Ok (Response (VStr "body") [("X-Total", "1")])).

(** A logic function that fails with the given exception. *)
Definition failing (e : pyexc) : logic_fn :=
  mkLogic "failing" (mkParams [] [] [] []) (mkSignature [] None)
    None None (fun _ _ => Raise e).

(** [def decorated_func(extra: str, name: Name, is_alive: IsAlive=True)
    -> Foo], wrapped by [pass_pos_param]. *)
Definition decorated_func : callable :=
  Wrapper
    (Function "decorated_func"
       (Some (mkSignature
                [("extra", mkParameter (Some builtin_str) None);
                 ("name", mkParameter (Some Name) None);
                 ("is_alive",
                  mkParameter (Some IsAlive) (Some (VBool true)))]
                (Some Foo)))).

(** [def no_params() -> Foo] *)
Definition no_params : callable :=
  Function "no_params" (Some (mkSignature [] (Some Foo))).

(** A stand-in for [str]: a string is its own text. *)
Definition show (o : pyobj) : string :=
  match o with
  | Raw (VStr s) => s
  | Raw (VInt _) => "<int>"
  | Raw _ => "<object>"
  | Response _ _ => "<doctor.response.Response object>"
  end.

Definition exec_all (lg : logic_fn) (args : list value) (kwargs : dict)
    : outcome pyobj :=
  __call__ lg args kwargs.

Definition no_schema : ResourceSchema unit :=
  mkResourceSchema unit (fun d _ => Ok d) (fun _ _ => Ok tt) false.

Definition request_of (mimetype method : string) (json values : dict)
    : Request :=
  mkRequest mimetype method "/foo" json values.

Definition globals_of (req : Request) : Globals := mkGlobals req ∅ ∅.

Definition debug_globals (req : Request) : Globals :=
  mkGlobals req (<["DEBUG" := VBool true]> ∅) ∅.

Definition st0 : state := State [] [].

(** A small limit in place of [MAX_RESPONSE_LENGTH], so that short texts
    are clipped. *)
Definition limit : nat := 4.

Definition the_handler : resource := ResourceInstance "MyHandler".

(** [flask_restful.Resource]: a type built on it with one verb callable
    in its namespace is created with that verb, upper-cased, as its
    [methods] list. *)
Definition Resource : base_class :=
  mkBase "Resource"
    (fun names =>
       match List.filter
               (fun n => bool_decide (n ∈ ["delete"; "get"; "post"; "put"]))
               names with
       | [] => None
       | l => Some (map upper l)
       end).

(** A base that keeps no [methods] list. *)
Definition PlainBase : base_class := mkBase "object" (fun _ => None).

(** [class MyHandler(Resource): pass] *)
Definition MyHandler : base_class :=
  mkBase "MyHandler" (init_methods Resource).

(** [def delete_foo(foo_id: FooId)] and [def update_foo(foo_id: FooId,
    name: Name, is_alive: IsAlive=True) -> Foo], with any integer taken as a
    foo id. *)
Definition FooId : Annotation :=
  mkAnnotation true
    (fun v =>
       match v with
       | VInt _ => Ok v
       | _ => Raise (type_error "Must be a valid number.")
       end).

Definition delete_foo : logic_fn :=
  mkLogic "delete_foo" (mkParams ["foo_id"] ["foo_id"] [] ["foo_id"])
    (mkSignature [("foo_id", mkParameter (Some FooId) None)] None)
    None None (fun _ _ => Ok (Raw VNone)).

Definition update_foo : logic_fn :=
  mkLogic "update_foo"
    (mkParams ["foo_id"; "name"; "is_alive"] ["foo_id"; "name"] ["is_alive"]
       ["foo_id"; "name"; "is_alive"])
    (mkSignature
       [("foo_id", mkParameter (Some FooId) None);
        ("name", mkParameter (Some Name) None);
        ("is_alive", mkParameter (Some IsAlive) (Some (VBool true)))]
       (Some Foo))
    None None (fun _ _ => Ok (Raw (VStr ""))).

(** [Age = integer('age', minimum=1, maximum=120)] and [def get_foo(name:
    Name, age: Age, is_alive: IsAlive=True) -> Foo]. *)
Definition Age : Annotation :=
  mkAnnotation true
    (fun v =>
       match v with
       | VInt n =>
           if (1 <=? n)%Z && (n <=? 120)%Z then Ok v
           else Raise (type_error "Must be between 1 and 120.")
       | _ => Raise (type_error "Must be a valid number.")
       end).

Definition get_foo : logic_fn :=
  mkLogic "get_foo"
    (mkParams ["name"; "age"; "is_alive"] ["name"; "age"] ["is_alive"]
       ["name"; "age"; "is_alive"])
    (mkSignature
       [("name", mkParameter (Some Name) None);
        ("age", mkParameter (Some Age) None);
        ("is_alive", mkParameter (Some IsAlive) (Some (VBool true)))]
       (Some Foo))
    None None (fun _ _ => Ok (Raw (VStr ""))).

(** The two routes of [test_create_routes]. *)
Definition foo_routes : list Route :=
  [mkRoute "^/foo/?$"
     [mkHTTPMethod Get get_foos; mkHTTPMethod Post create_foo]
     None MyHandler (Some "MyHandler");
   mkRoute "^/foo/<int:foo_id>/?$"
     [mkHTTPMethod Delete delete_foo; mkHTTPMethod Get get_foo;
      mkHTTPMethod Put update_foo]
     None Resource None].

(** A route that binds no verb, and a route whose handler name is the
    empty string. *)
Definition bare_route : Route := mkRoute "^/bare/?$" [] None Resource None.

Definition unnamed_route : Route :=
  mkRoute "^/foo/?$" [mkHTTPMethod Get get_foos] None Resource (Some "").

(** A route on a base that keeps no [methods] list. *)
Definition plain_route : Route :=
  mkRoute "^/foo/?$"
    [mkHTTPMethod Get get_foos; mkHTTPMethod Post create_foo]
    None PlainBase None.

End samples.

(** ** Statements of the specification, as predicates on the model *)

Module spec.
Import errors flask.

(** The classes the first [except] clause of each dispatcher names. *)
Definition bad_request_v3 : list pyclass :=
  [InvalidValueError; TypeSystemError].
Definition bad_request_http : list pyclass :=
  [InvalidValueError; ParseError; SchemaValidationError].

(** The ordered table of section 4.3, first match wins, for a dispatcher
    whose 400 row lists the classes [bad_request]: [out] is what the
    dispatcher gives when [e] leaves its [try] block in state [st']. *)
Definition first_match_translation (bad_request : list pyclass)
    (g : Globals) (allowed_exceptions : option (list pyclass))
    (e : pyexc) (st' : state) (out : outcome reply * state) : Prop :=
  let is400 := existsb (isinstance e) bad_request in
  let is401 := isinstance e UnauthorizedError in
  let is403 := isinstance e ForbiddenError in
  let is404 := isinstance e NotFoundError in
  let is409 := isinstance e ImmutableError in
  (is400 = true ->
   out = (Raise (SchematicHTTP HTTP400 (inl e) (getattr_errors e)), st'))
  /\ (is400 = false -> is401 = true ->
      out = (Raise (SchematicHTTP HTTP401 (inl e) None), st'))
  /\ (is400 = false -> is401 = false -> is403 = true ->
      out = (Raise (SchematicHTTP HTTP403 (inl e) None), st'))
  /\ (is400 = false -> is401 = false -> is403 = false -> is404 = true ->
      out = (Raise (SchematicHTTP HTTP404 (inl e) None), st'))
  /\ (is400 = false -> is401 = false -> is403 = false -> is404 = false ->
      is409 = true ->
      out = (Raise (SchematicHTTP HTTP409 (inl e) None), st'))
  /\ (is400 = false -> is401 = false -> is403 = false -> is404 = false ->
      is409 = false ->
      isinstance e Exception = true ->
      debug g = false -> allowed e allowed_exceptions = false ->
      out = (Raise (SchematicHTTP HTTP500
                      (inr "Uncaught error in logic function") None),
             State (log st' ++ [LogException e]) (calls st'))).




(** The text logged for a stringified response [s] under the limit
    [limit]: the first [limit] characters of [s] followed by the ellipsis
    marker when [s] is longer than the limit, [s] itself otherwise. *)
Definition clipped (limit : nat) (s text : string) : Prop :=
  ((limit < String.length s)%nat ->
   exists head,
     String.prefix head s = true
     /\ String.length head = limit
     /\ text = head +:+ "..."
     /\ String.length text = (limit + 3)%nat)
  /\ ((String.length s <= limit)%nat -> text = s).

End spec.

(** ** doctor/routing.py: binding a function to a verb *)

(** [HTTPMethod.__init__] writes attributes on the function it is given, so
    here function objects live in a store and an [HTTPMethod] refers to its
    function by its address. *)
Module binding.

(** A function object: its name, what [inspect.signature] gives for it, what
    calling it does, and the four attributes of the library, each present
    or not.  The two last attributes hold an object or [None]. *)
Record fobject : Type := mkFunction {
  f_name : string;
  f_inspect : Signature;
  f_call : list value -> dict -> outcome pyobj;
  f_doctor_signature : option Signature;
  f_doctor_params : option Params;
  f_doctor_allowed_exceptions : option (option (list pyclass));
  f_doctor_title : option (option string)
}.

Abbreviation store := (nat -> fobject).

Record HTTPMethod : Type := mkHTTPMethod {
  method : string;
  logic : nat
}.

(** The assignments to the attributes of a function. *)
Definition set_signature (sig : Signature) (f : fobject) : fobject :=
  mkFunction (f_name f) (f_inspect f) (f_call f) (Some sig)
    (f_doctor_params f) (f_doctor_allowed_exceptions f) (f_doctor_title f).

Definition set_params (p : Params) (f : fobject) : fobject :=
  mkFunction (f_name f) (f_inspect f) (f_call f) (f_doctor_signature f)
    (Some p) (f_doctor_allowed_exceptions f) (f_doctor_title f).

Definition set_allowed_exceptions (a : option (list pyclass)) (f : fobject)
    : fobject :=
  mkFunction (f_name f) (f_inspect f) (f_call f) (f_doctor_signature f)
    (f_doctor_params f) (Some a) (f_doctor_title f).

Definition set_title (t : option string) (f : fobject) : fobject :=
  mkFunction (f_name f) (f_inspect f) (f_call f) (f_doctor_signature f)
    (f_doctor_params f) (f_doctor_allowed_exceptions f) (Some t).

(** The function as the dispatchers read it, when the four attributes are
    there. *)
Definition as_logic_fn (f : fobject) : option logic_fn :=
  match f_doctor_signature f, f_doctor_params f,
        f_doctor_allowed_exceptions f, f_doctor_title f with
  | Some sig, Some p, Some a, Some t =>
      Some (mkLogic (f_name f) p sig a t (f_call f))
  | _, _, _, _ => None
  end.

Section Bind.

(** [doctor.utils.get_params_from_func], not among the sources; it is
    called on the function once its [_doctor_signature] is there. *)
Variable get_params_from_func : fobject -> Params.

(** The body of [HTTPMethod.__init__] on the function object. *)
Definition bind_attributes (allowed_exceptions : option (list pyclass))
    (title : option string) (f : fobject) : fobject :=
  let f :=
    match f_doctor_signature f with
    | Some _ => f
    | None => set_signature (f_inspect f) f
    end in
  let f :=
    match f_doctor_params f with
    | Some _ => f
    | None => set_params (get_params_from_func f) f
    end in
  set_title title (set_allowed_exceptions allowed_exceptions f).

(** [HTTPMethod(method, logic, allowed_exceptions, title)] *)
Definition HTTPMethod_init (method : string) (logic : nat)
    (allowed_exceptions : option (list pyclass)) (title : option string)
    (h : store) : HTTPMethod * store :=
  (mkHTTPMethod method logic,
   <[logic := bind_attributes allowed_exceptions title (h logic)]> h).

Definition delete (func : nat) (allowed_exceptions : option (list pyclass))
    (title : option string) (h : store) : HTTPMethod * store :=
  HTTPMethod_init "delete" func allowed_exceptions title h.

Definition get (func : nat) (allowed_exceptions : option (list pyclass))
    (title : option string) (h : store) : HTTPMethod * store :=
  HTTPMethod_init "get" func allowed_exceptions title h.

Definition post (func : nat) (allowed_exceptions : option (list pyclass))
    (title : option string) (h : store) : HTTPMethod * store :=
  HTTPMethod_init "post" func allowed_exceptions title h.

Definition put (func : nat) (allowed_exceptions : option (list pyclass))
    (title : option string) (h : store) : HTTPMethod * store :=
  HTTPMethod_init "put" func allowed_exceptions title h.

End Bind.

End binding.

(** ** doctor/resource.py *)

Module resource.

(** [ResourceSchemaAnnotation]; the logic function, the schema object and
    the two schemas are kept as they are given. *)
Record ResourceSchemaAnnotation (L S : Type) : Type :=
  mkResourceSchemaAnnotation {
    sa_logic : L;
    sa_http_method : string;
    sa_schema : S;
    sa_request_schema : value;
    sa_response_schema : value;
    sa_title : option string
  }.
Arguments mkResourceSchemaAnnotation {L S}.
Arguments sa_logic {L S}.
Arguments sa_http_method {L S}.
Arguments sa_schema {L S}.
Arguments sa_request_schema {L S}.
Arguments sa_response_schema {L S}.
Arguments sa_title {L S}.

(** [ResourceSchemaAnnotation.__init__] *)
Definition ResourceSchemaAnnotation_init {L S} (logic : L)
    (http_method : string) (schema : S)
    (request_schema response_schema : value) (title : option string)
    : ResourceSchemaAnnotation L S :=
  mkResourceSchemaAnnotation logic http_method schema request_schema
    response_schema
    (match title with
     | Some t => Some t
     | None =>
         if String.eqb (upper http_method) "GET" then Some "Retrieve"
         else if String.eqb (upper http_method) "POST" then Some "Create"
         else if String.eqb (upper http_method) "PUT" then Some "Update"
         else if String.eqb (upper http_method) "DELETE" then Some "Delete"
         else None
     end).

(** [ResourceAnnotation] *)
Record ResourceAnnotation : Type := mkResourceAnnotation {
  annotated_parameters : odict SigParameter;
  http_method : string;
  logic : logic_fn;
  params : Params;
  return_annotation : option Annotation;
  title : option string
}.

(** [ResourceAnnotation.__init__] *)
Definition ResourceAnnotation_init (lg : logic_fn) (http_method : string)
    (title : option string) : ResourceAnnotation :=
  mkResourceAnnotation
    (parameters (_doctor_signature lg))
    (upper http_method)
    lg
    (_doctor_params lg)
    (utils.return_annotation (_doctor_signature lg))
    (match title with
     | Some t => Some t
     | None =>
         if String.eqb (upper http_method) "GET" then Some "Retrieve"
         else if String.eqb (upper http_method) "POST" then Some "Create"
         else if String.eqb (upper http_method) "PUT" then Some "Update"
         else if String.eqb (upper http_method) "DELETE" then Some "Delete"
         else None
     end).

(** *** [ResourceSchemaAnnotation.get_annotation] *)

Definition ValueError : pyclass := PyClass "ValueError" [Exception].
Definition IndexError : pyclass := PyClass "IndexError" [LookupError].

(** A cell of a closure: empty, or holding an object or [None]. *)
Inductive cell : Type :=
| EmptyCell
| Cell (cell_contents : option nat).

(** An object as [get_annotation] looks at it: the three attributes it asks
    for, each there or not.  Objects are known by their address. *)
Record pyobject (A : Type) : Type := mkObject {
  _schema_annotation : option A;
  im_func : option nat;
  __closure__ : option (list cell)
}.
Arguments mkObject {A}.
Arguments _schema_annotation {A}.
Arguments im_func {A}.
Arguments __closure__ {A}.

(** The last three statements of the loop: the object the loop goes on
    with, [None] when there is none. *)
Definition next {A} (h : nat -> pyobject A) (fn : nat)
    : outcome (option nat) :=
  let fn := default fn (im_func (h fn)) in
  match __closure__ (h fn) with
  | None => Ok None
  | Some [] => Raise (Exc IndexError "tuple index out of range" None)
  | Some (EmptyCell :: _) => Raise (Exc ValueError "Cell is empty" None)
  | Some (Cell contents :: _) => Ok contents
  end.

(** The loop of [get_annotation], run for at most [fuel] turns; [None]
    when the loop has not ended by then. *)
Fixpoint get_annotation {A} (h : nat -> pyobject A) (fuel : nat)
    (fn : option nat) : option (outcome (option A)) :=
  match fn with
  | None => Some (Ok None)
  | Some r =>
      match fuel with
      | O => None
      | S fuel' =>
          match _schema_annotation (h r) with
          | Some a => Some (Ok (Some a))
          | None =>
              match next h r with
              | Ok fn' => get_annotation h fuel' fn'
              | Raise e => Some (Raise e)
              end
          end
      end
  end.


(** *** [ResourceSchema._create_request_schema] *)

(** The [properties] of the schema: one reference per parameter. *)
Definition request_properties (params : list string) : dict :=
  fold_left
    (fun properties param =>
       dict_setitem param
         (VDict [("$ref", VStr ("#/definitions/" +:+ param))]) properties)
    params [].

(** [_create_request_schema(params, required)]; [definitions] is what
    [self.resolve('#/definitions')] gives ([doctor/schema.py] is not among
    the sources).  A tuple and a list are the same value here. *)
Definition _create_request_schema (definitions : outcome value)
    (params : list string) (required : option (list string))
    : outcome value :=
  match definitions with
  | Raise e => Raise e
  | Ok defs =>
      Ok (VDict
            [("additionalProperties", VBool true);
             ("definitions", defs);
             ("properties", VDict (request_properties params));
             ("required", VList (map VStr (default [] required)));
             ("type", VStr "object")])
  end.

End resource.

(** ** More objects to run the definitions on *)

Module more_samples.
Import samples.

(** A function that no binding has touched, and one that
    [add_param_annotations] has given its attributes. *)
Definition fresh_function : binding.fobject :=
  binding.mkFunction "create_foo" create_foo_signature
    (fun _ _ => Ok (Raw (VStr ""))) None None None None.

Definition annotated_function : binding.fobject :=
  binding.mkFunction "get_foos" (mkSignature [] None)
    (fun _ _ => Ok (Raw (VInt 7)))
    (Some (_doctor_signature get_foos)) (Some (_doctor_params get_foos))
    None None.

Definition functions : nat -> binding.fobject :=
  fun r => if (r =? 0)%nat then fresh_function else annotated_function.

(** A stand-in for [get_params_from_func]: every parameter of the
    signature attribute is required. *)
Definition all_required (f : binding.fobject) : Params :=
  match binding.f_doctor_signature f with
  | Some sig =>
      mkParams (keys (parameters sig)) (keys (parameters sig)) []
        (keys (parameters sig))
  | None => mkParams [] [] [] []
  end.

(** Three objects: a wrapper whose closure holds a second wrapper, whose
    closure holds an annotated function; and, at address 3, a function whose
    closure holds the function itself. *)
Definition objects : nat -> resource.pyobject string :=
  fun r =>
    match r with
    | 0 => resource.mkObject None None (Some [resource.Cell (Some 1)])
    | 1 => resource.mkObject None None (Some [resource.Cell (Some 2)])
    | 2 => resource.mkObject (Some "annotation") None None
    | _ => resource.mkObject None None (Some [resource.Cell (Some 3)])
    end.

(** A resource schema whose parser refuses every value with a parse
    error, and one whose validator refuses every document with a
    schema-validation error and which asks for such errors to be raised. *)
Definition refusing_parser : flask.ResourceSchema unit :=
  flask.mkResourceSchema unit
    (fun _ _ => Raise (Exc errors.ParseError "not a number" None))
    (fun _ _ => Ok tt) false.

Definition refusing_validator : flask.ResourceSchema unit :=
  flask.mkResourceSchema unit (fun d _ => Ok d)
    (fun _ _ =>
       Raise (Exc errors.SchemaValidationError "7 is not of type string"
                (Some (VDict [("response", VStr "not a string")]))))
    true.

(** A route that declares [get] twice. *)
Definition twice_get : routing.Route :=
  routing.mkRoute "^/foo/?$"
    [routing.mkHTTPMethod routing.Get get_foos;
     routing.mkHTTPMethod routing.Post create_foo;
     routing.mkHTTPMethod routing.Get get_foo]
    (Some "Foo") Resource None.

End more_samples.

(** ** Predicates for the further properties *)

Module facts.

(** What an entry of the mapping needs for its turn of the coercion loop
    to succeed with the value [v']: a parameter of that name in the
    signature, with an annotation that accepts the value. *)
Definition coerces (sig : Signature) (kv : string * value) (v' : value)
    : Prop :=
  exists p a,
    dict_get (fst kv) (parameters sig) = Some p
    /\ annotation p = Some a
    /\ construct a (snd kv) = Ok v'.

(** What a dispatch that starts in [st] and ends with [out] has added:
    the calls [cs] and the log records [new]. *)
Definition adds (st : state) (out : outcome flask.reply * state)
    (cs : list call_record) (new : list log_record) : Prop :=
  calls (snd out) = calls st ++ cs /\ log (snd out) = log st ++ new.

(** No retry and no warning before the call: at most one call and two log
    records; a warning only when the logic function has been called; and a
    dispatch that returns has called it once and has logged no exception. *)
Definition single_attempt (out : outcome flask.reply * state)
    (cs : list call_record) (new : list log_record) : Prop :=
  (length cs <= 1)%nat
  /\ (length new <= 2)%nat
  /\ (forall m p text ex, LogWarning m p text ex ∈ new -> length cs = 1%nat)
  /\ (forall r, fst out = Ok r ->
                length cs = 1%nat /\ forall e, LogException e ∉ new).

End facts.

(** ** Tactics *)

(** Case analysis on every condition of a chain of [except] clauses. *)
Ltac except_clauses :=
  repeat match goal with
         | |- context [if ?b then _ else _] => destruct b
         end.


(** A membership in a short list of records of other kinds is absurd. *)
Ltac no_such_record H :=
  repeat (apply elem_of_cons in H as [H | H]; [discriminate |]);
  by apply not_elem_of_nil in H.

(** Name the calls and the records that a dispatch has added, and check the
    bounds on them. *)
Ltac account :=
  eexists _, _; split;
  [ split; simpl;
    first [ reflexivity
          | symmetry; apply app_nil_r
          | rewrite <- app_assoc; reflexivity ]
  | repeat split; simpl; try lia; try discriminate;
    try (intros; lia);
    try (let H := fresh in intros ? ? ? ? H; no_such_record H);
    try (let H := fresh in intros ? H; no_such_record H) ].

(** * Properties *)

(** ** Dictionaries *)

Section DictFacts.
Context {A : Type}.
Implicit Types (d kw : odict A) (k : string).

Lemma dict_get_setitem k k' (v : A) d :
  dict_get k (dict_setitem k' v d) =
    if String.eqb k k' then Some v else dict_get k d.
Proof.
  induction d as [| [k0 v0] d IH]; simpl.
  - reflexivity.
  - destruct (String.eqb_spec k' k0) as [-> | Hne]; simpl.
    + by destruct (String.eqb k k0).
    + destruct (String.eqb_spec k k0) as [-> | Hne'].
      * destruct (String.eqb_spec k0 k'); [congruence | reflexivity].
      * exact IH.
Qed.

Lemma dict_get_None k d : k ∉ keys d -> dict_get k d = None.
Proof.
  induction d as [| [k0 v0] d IH]; simpl; [reflexivity |].
  intros Hnin. apply not_elem_of_cons in Hnin as [Hne Hnin].
  destruct (String.eqb_spec k k0); [congruence | by apply IH].
Qed.

Lemma dict_get_filter (P : string -> bool) k d :
  dict_get k (List.filter (fun kv => P (fst kv)) d) =
    if P k then dict_get k d else None.
Proof.
  induction d as [| [k0 v0] d IH]; simpl.
  - by destruct (P k).
  - destruct (P k0) eqn:HP0; simpl.
    + destruct (String.eqb_spec k k0) as [-> | Hne].
      * by rewrite HP0.
      * exact IH.
    + destruct (String.eqb_spec k k0) as [-> | Hne].
      * rewrite IH. by rewrite HP0.
      * exact IH.
Qed.

(** Keyword arguments win over the entries already there. *)
Lemma dict_get_update k d kw :
  NoDup (keys kw) ->
  dict_get k (dict_update d kw) =
    match dict_get k kw with
    | Some v => Some v
    | None => dict_get k d
    end.
Proof.
  unfold dict_update. revert d.
  induction kw as [| [k0 v0] kw IH]; intros d Hnd; simpl.
  - reflexivity.
  - simpl in Hnd. apply NoDup_cons in Hnd as [Hnin Hnd].
    rewrite (IH _ Hnd), dict_get_setitem.
    destruct (String.eqb_spec k k0) as [-> | Hne].
    + by rewrite (dict_get_None _ _ Hnin).
    + reflexivity.
Qed.

End DictFacts.

(** ** The dispatchers *)

Section DispatchFacts.
Import errors constants flask spec.

Variable str : pyobj -> string.
Variable MAX_RESPONSE_LENGTH : nat.
Variable validator : Type.
Variable exec_params : logic_fn -> list value -> dict -> outcome pyobj.

Local Abbreviation handle_http_v3 := (handle_http_v3 str MAX_RESPONSE_LENGTH).
Local Abbreviation body_v3 := (body_v3 str MAX_RESPONSE_LENGTH).
Local Abbreviation handle_http :=
  (handle_http str MAX_RESPONSE_LENGTH validator exec_params).
Local Abbreviation body_http :=
  (body_http str MAX_RESPONSE_LENGTH validator exec_params).
Local Abbreviation warning_v3 := (warning_v3 str MAX_RESPONSE_LENGTH).
Local Abbreviation warning_http := (warning_http str MAX_RESPONSE_LENGTH).



(** The [except] clauses of [handle_http_v3]. *)
Lemma handle_http_v3_translation g handler args kwargs lg allowed_exceptions
    st e st' :
  body_v3 g args kwargs lg st = (Raise e, st') ->
  first_match_translation bad_request_v3 g allowed_exceptions e st'
    (handle_http_v3 g handler args kwargs lg allowed_exceptions st).
Proof.
  intros Hbody.
  unfold flask.handle_http_v3, try_except. rewrite Hbody.
  unfold first_match_translation, bad_request_v3. simpl existsb.
  rewrite orb_false_r.
  repeat split; intros; 
    repeat match goal with H : _ = _ |- _ => rewrite H end; reflexivity.
Qed.

(** The [except] clauses of [handle_http]. *)
Lemma handle_http_translation g schema handler args kwargs lg request_schema
    request_validator response_validator allowed_exceptions st e st' :
  body_http g schema args kwargs lg request_schema request_validator
    response_validator st = (Raise e, st') ->
  first_match_translation bad_request_http g allowed_exceptions e st'
    (handle_http g schema handler args kwargs lg request_schema
       request_validator response_validator allowed_exceptions st).
Proof.
  intros Hbody.
  unfold flask.handle_http, try_except. rewrite Hbody.
  unfold first_match_translation, bad_request_http. simpl existsb.
  rewrite orb_false_r, orb_assoc.
  repeat split; intros;
    repeat match goal with H : _ = _ |- _ => rewrite H end; reflexivity.
Qed.

(** C1, as amended: an exception that leaves the [try] block of a
    dispatcher is translated by the first matching row of that
    dispatcher's own table.  The 400 row of [handle_http_v3] lists the
    invalid-value and type-system errors, the 400 row of [handle_http] the
    invalid-value, parse and schema-validation errors, and the [errors]
    payload of the exception, when it has one, is attached; then come
    unauthorized (401), forbidden (403), not found (404) and immutable
    (409); any other exception that derives from [Exception], with debug
    off and no allowed class matching, is logged and replaced by a 500
    whose description is the fixed string and which does not hold the
    original exception. *)
Theorem exception_translation_per_dispatcher :
  (forall g handler args kwargs lg allowed_exceptions st e st',
      body_v3 g args kwargs lg st = (Raise e, st') ->
      first_match_translation bad_request_v3 g allowed_exceptions e st'
        (handle_http_v3 g handler args kwargs lg allowed_exceptions st))
  /\ (forall g schema handler args kwargs lg request_schema
        request_validator response_validator allowed_exceptions st e st',
        body_http g schema args kwargs lg request_schema request_validator
          response_validator st = (Raise e, st') ->
        first_match_translation bad_request_http g allowed_exceptions e st'
          (handle_http g schema handler args kwargs lg request_schema
             request_validator response_validator allowed_exceptions st)).
Proof.
  split; intros.
  - by apply handle_http_v3_translation.
  - by apply handle_http_translation.
Qed.






(** *** Successful dispatches *)

Lemma status_code_by_verb (req : Request) :
  status_code req =
    if String.eqb (method req) "POST" then 201
    else if String.eqb (method req) "DELETE" then 204
    else 200.
Proof.
  unfold status_code, STATUS_CODE_MAP.
  destruct (String.eqb_spec (method req) "POST") as [-> | Hpost].
  { by rewrite lookup_insert_eq. }
  rewrite lookup_insert_ne by congruence.
  destruct (String.eqb_spec (method req) "DELETE") as [-> | Hdel].
  { by rewrite lookup_insert_eq. }
  rewrite lookup_insert_ne by congruence.
  by rewrite lookup_empty.
Qed.

(** Response validation of [handle_http_v3], case by case. *)
Lemma validate_response_v3_cases g sig response st :
  validate_response_v3 str MAX_RESPONSE_LENGTH g sig response st =
    match return_annotation sig with
    | None => (Ok tt, st)
    | Some ann =>
        match construct ann (unwrap response) with
        | Ok _ => (Ok tt, st)
        | Raise e =>
            if isinstance e TypeSystemError then
              (if should_raise_response_validation_errors g
               then Raise e else Ok tt,
               logged (warning_v3 g response e) st)
            else (Raise e, st)
        end
    end.
Proof.
  unfold validate_response_v3, try_except, bind, lift, emit, raise, ret.
  destruct (return_annotation sig) as [ann |]; [| reflexivity].
  destruct (construct ann (unwrap response)) as [v | e]; [reflexivity |].
  destruct (isinstance e TypeSystemError); [| reflexivity].
  by destruct (should_raise_response_validation_errors g).
Qed.

(** Response validation of [handle_http], case by case. *)
Lemma validate_response_cases g (schema : ResourceSchema validator)
    response_validator response st :
  validate_response str MAX_RESPONSE_LENGTH validator g schema
    response_validator response st =
    match response_validator with
    | None => (Ok tt, st)
    | Some rv =>
        match validate validator schema (unwrap response) rv with
        | Ok _ => (Ok tt, st)
        | Raise e =>
            if isinstance e SchemaValidationError then
              (if raise_response_validation_errors validator schema
               then Raise e else Ok tt,
               logged (warning_http g response e) st)
            else (Raise e, st)
        end
    end.
Proof.
  unfold validate_response, try_except, bind, lift, emit, raise, ret.
  destruct response_validator as [rv |]; [| reflexivity].
  destruct (validate validator schema (unwrap response) rv) as [[] | e];
    [reflexivity |].
  destruct (isinstance e SchemaValidationError); [| reflexivity].
  by destruct (raise_response_validation_errors validator schema).
Qed.

(** The [try] block of [handle_http_v3], case by case. *)
Lemma body_v3_cases g args kwargs lg st :
  body_v3 g args kwargs lg st =
    let merged := merged_v3 g kwargs lg in
    match check_required (required (_doctor_params lg)) merged with
    | Raise e => (Raise e, st)
    | Ok _ =>
        match coerce (_doctor_signature lg) merged merged with
        | Raise e => (Raise e, st)
        | Ok params =>
            let st1 := called (Call (__name__ lg) args params) st in
            match __call__ lg args params with
            | Raise e => (Raise e, st1)
            | Ok response =>
                match validate_response_v3 str MAX_RESPONSE_LENGTH g
                        (_doctor_signature lg) response st1 with
                | (Ok _, st2) => (Ok (shape (request g) response), st2)
                | (Raise e, st2) => (Raise e, st2)
                end
            end
        end
    end.
Proof.
  unfold flask.body_v3, merged_v3, bind, lift, call_logic, record_call, ret.
  simpl.
  destruct (check_required _ _); [| reflexivity].
  destruct (coerce _ _ _); [| reflexivity].
  destruct (__call__ lg args a0); reflexivity.
Qed.

(** The [try] block of [handle_http], case by case. *)
Lemma body_http_cases g schema args kwargs lg request_schema
    request_validator response_validator st :
  body_http g schema args kwargs lg request_schema request_validator
    response_validator st =
    match kwargs_http validator g schema kwargs request_schema
            request_validator with
    | Raise e => (Raise e, st)
    | Ok kw =>
        let st1 := called (Call (__name__ lg) args kw) st in
        match exec_params lg args kw with
        | Raise e => (Raise e, st1)
        | Ok response =>
            match validate_response str MAX_RESPONSE_LENGTH validator g
                    schema response_validator response st1 with
            | (Ok _, st2) => (Ok (shape (request g) response), st2)
            | (Raise e, st2) => (Raise e, st2)
            end
        end
    end.
Proof.
  unfold flask.body_http, kwargs_http, bind, lift, call_exec_params,
    record_call, ret.
  destruct (truthy request_schema); simpl.
  - destruct (json_request (request g)); simpl.
    + destruct request_validator as [rv |]; simpl.
      * destruct (validate validator schema _ rv); simpl; [| reflexivity].
        destruct (exec_params lg args _); reflexivity.
      * destruct (exec_params lg args _); reflexivity.
    + destruct (_parse_params validator schema _ _) as [d |]; simpl;
        [| reflexivity].
      destruct request_validator as [rv |]; simpl.
      * destruct (validate validator schema _ rv); simpl; [| reflexivity].
        destruct (exec_params lg args _); reflexivity.
      * destruct (exec_params lg args _); reflexivity.
  - destruct (exec_params lg args kwargs); reflexivity.
Qed.

Lemma body_v3_ok g args kwargs lg st r st' :
  body_v3 g args kwargs lg st = (Ok r, st') ->
  exists params response,
    __call__ lg args params = Ok response
    /\ r = shape (request g) response
    /\ calls st' = calls st ++ [Call (__name__ lg) args params].
Proof.
  rewrite body_v3_cases. cbv zeta.
  destruct (check_required _ _); [| discriminate].
  destruct (coerce _ _ _) as [params |]; [| discriminate].
  destruct (__call__ lg args params) as [response |] eqn:Hcall;
    [| discriminate].
  rewrite validate_response_v3_cases.
  intros H. exists params, response. split; [exact Hcall |].
  destruct (return_annotation (_doctor_signature lg)) as [ann |].
  - destruct (construct ann (unwrap response)) as [v | e].
    + by inversion H.
    + destruct (isinstance e TypeSystemError); [| discriminate].
      destruct (should_raise_response_validation_errors g);
        [discriminate |].
      by inversion H.
  - by inversion H.
Qed.

Lemma body_http_ok g schema args kwargs lg request_schema
    request_validator response_validator st r st' :
  body_http g schema args kwargs lg request_schema request_validator
    response_validator st = (Ok r, st') ->
  exists kw response,
    exec_params lg args kw = Ok response
    /\ r = shape (request g) response
    /\ calls st' = calls st ++ [Call (__name__ lg) args kw].
Proof.
  rewrite body_http_cases.
  destruct (kwargs_http _ _ _ _ _ _) as [kw |]; [| discriminate].
  cbv zeta.
  destruct (exec_params lg args kw) as [response |] eqn:Hcall;
    [| discriminate].
  rewrite validate_response_cases.
  intros H. exists kw, response. split; [exact Hcall |].
  destruct response_validator as [rv |].
  - destruct (validate validator schema (unwrap response) rv) as [v | e].
    + by inversion H.
    + destruct (isinstance e SchemaValidationError); [| discriminate].
      destruct (raise_response_validation_errors validator schema);
        [discriminate |].
      by inversion H.
  - by inversion H.
Qed.

(** A dispatcher that returns has returned from its [try] block. *)
Lemma handle_http_v3_ok g handler args kwargs lg allowed_exceptions st r st' :
  handle_http_v3 g handler args kwargs lg allowed_exceptions st = (Ok r, st')
  -> body_v3 g args kwargs lg st = (Ok r, st').
Proof.
  unfold flask.handle_http_v3, try_except.
  destruct (body_v3 g args kwargs lg st) as [[r0 | e] st0]; [done |].
  unfold raise, bind, emit.
  except_clauses; discriminate.
Qed.

Lemma handle_http_ok g schema handler args kwargs lg request_schema
    request_validator response_validator allowed_exceptions st r st' :
  handle_http g schema handler args kwargs lg request_schema
    request_validator response_validator allowed_exceptions st = (Ok r, st')
  -> body_http g schema args kwargs lg request_schema request_validator
       response_validator st = (Ok r, st').
Proof.
  unfold flask.handle_http, try_except.
  destruct (body_http _ _ _ _ _ _ _ _ _) as [[r0 | e] st0]; [done |].
  unfold raise, bind, emit.
  except_clauses; discriminate.
Qed.

(** The reply the specification describes for a response and a verb. *)
Lemma shape_by_verb (req : Request) (response : pyobj) :
  shape req response =
    let status :=
      if String.eqb (method req) "POST" then 201
      else if String.eqb (method req) "DELETE" then 204
      else 200 in
    match response with
    | Response content headers => Reply3 content status headers
    | Raw v => Reply2 v status
    end.
Proof.
  unfold shape. rewrite status_code_by_verb. by destruct response.
Qed.

(** C3: a dispatch that succeeds has called the logic function once, and
    its reply is made from what that call returned: the 3-tuple (content,
    status, headers) for a [Response] envelope, the 2-tuple (value, status)
    for any other value, where the status is 201 when the verb is POST, 204
    when it is DELETE and 200 otherwise.  Nothing of the route, the binding
    or the logic function enters the status.  This holds for
    [handle_http_v3] and for [handle_http]. *)
Theorem successful_reply_shape :
  (forall g handler args kwargs lg allowed_exceptions st r st',
      handle_http_v3 g handler args kwargs lg allowed_exceptions st
        = (Ok r, st') ->
      exists params response,
        calls st' = calls st ++ [Call (__name__ lg) args params]
        /\ __call__ lg args params = Ok response
        /\ r = (let status :=
                  if String.eqb (method (request g)) "POST" then 201
                  else if String.eqb (method (request g)) "DELETE" then 204
                  else 200 in
                match response with
                | Response content headers => Reply3 content status headers
                | Raw v => Reply2 v status
                end))
  /\ (forall g schema handler args kwargs lg request_schema
        request_validator response_validator allowed_exceptions st r st',
        handle_http g schema handler args kwargs lg request_schema
          request_validator response_validator allowed_exceptions st
          = (Ok r, st') ->
        exists params response,
          calls st' = calls st ++ [Call (__name__ lg) args params]
          /\ exec_params lg args params = Ok response
          /\ r = (let status :=
                    if String.eqb (method (request g)) "POST" then 201
                    else if String.eqb (method (request g)) "DELETE" then 204
                    else 200 in
                  match response with
                  | Response content headers => Reply3 content status headers
                  | Raw v => Reply2 v status
                  end)).
Proof.
  split.
  - intros * H. apply handle_http_v3_ok, body_v3_ok in H.
    destruct H as (params & response & Hcall & -> & Hcalls).
    exists params, response. by rewrite shape_by_verb.
  - intros * H. apply handle_http_ok, body_http_ok in H.
    destruct H as (params & response & Hcall & -> & Hcalls).
    exists params, response. by rewrite shape_by_verb.
Qed.

(** *** Missing required parameters *)

Lemma check_required_first_missing (required : list string) (params : dict)
    (r0 : string) :
  r0 ∈ required -> dict_mem r0 params = false ->
  exists pre r post,
    required = pre ++ r :: post
    /\ Forall (fun x => dict_mem x params = true) pre
    /\ dict_mem r params = false
    /\ check_required required params
       = Raise (Exc InvalidValueError (r +:+ " is required.") None).
Proof.
  induction required as [| x required IH]; intros Hin Hmiss.
  - by apply not_elem_of_nil in Hin.
  - simpl. destruct (dict_mem x params) eqn:Hx.
    + apply elem_of_cons in Hin as [-> | Hin]; [congruence |].
      destruct (IH Hin Hmiss) as (pre & r & post & -> & Hpre & Hr & Hchk).
      exists (x :: pre), r, post. repeat split; try done.
      by constructor.
    + exists [], x, required. repeat split; try done.
Qed.

(** C4: in type-annotation mode, when a name of the required set of the
    logic function is absent from the merged parameter mapping, the
    dispatch raises the 400 exception built from an invalid-value error
    whose message is "<name> is required.", for the first such name in the
    order of the required set; the state is left as it was, so the logic
    function has not been called and nothing has been logged. *)
Theorem missing_required_parameter g handler args kwargs lg
    allowed_exceptions st r0 :
  r0 ∈ required (_doctor_params lg) ->
  dict_mem r0 (merged_v3 g kwargs lg) = false ->
  exists pre r post,
    required (_doctor_params lg) = pre ++ r :: post
    /\ Forall (fun x => dict_mem x (merged_v3 g kwargs lg) = true) pre
    /\ dict_mem r (merged_v3 g kwargs lg) = false
    /\ handle_http_v3 g handler args kwargs lg allowed_exceptions st
       = (Raise (HTTP400Exception
                   (inl (Exc InvalidValueError (r +:+ " is required.") None))
                   None),
          st).
Proof.
  intros Hin Hmiss.
  destruct (check_required_first_missing _ _ _ Hin Hmiss)
    as (pre & r & post & Hreq & Hpre & Hr & Hchk).
  exists pre, r, post. repeat split; try done.
  unfold flask.handle_http_v3, try_except.
  rewrite body_v3_cases. cbv zeta. rewrite Hchk.
  reflexivity.
Qed.

(** *** What a dispatch leaves in the trace and in the log *)

(** The [except] clauses add at most the record of the exception they
    replace by a 500. *)
Lemma handle_http_v3_state g handler args kwargs lg allowed_exceptions st :
  snd (handle_http_v3 g handler args kwargs lg allowed_exceptions st)
    = snd (body_v3 g args kwargs lg st)
  \/ exists e,
      snd (handle_http_v3 g handler args kwargs lg allowed_exceptions st)
        = logged (LogException e) (snd (body_v3 g args kwargs lg st)).
Proof.
  unfold flask.handle_http_v3, try_except.
  destruct (body_v3 g args kwargs lg st) as [[r | e] st1]; [by left |].
  unfold raise, bind, emit. simpl.
  except_clauses; simpl; first [ by left | right; by exists e ].
Qed.

Lemma handle_http_state g schema handler args kwargs lg request_schema
    request_validator response_validator allowed_exceptions st :
  snd (handle_http g schema handler args kwargs lg request_schema
         request_validator response_validator allowed_exceptions st)
    = snd (body_http g schema args kwargs lg request_schema
             request_validator response_validator st)
  \/ exists e,
      snd (handle_http g schema handler args kwargs lg request_schema
             request_validator response_validator allowed_exceptions st)
        = logged (LogException e)
            (snd (body_http g schema args kwargs lg request_schema
                    request_validator response_validator st)).
Proof.
  unfold flask.handle_http, try_except.
  destruct (body_http _ _ _ _ _ _ _ _ _) as [[r | e] st1]; [by left |].
  unfold raise, bind, emit. simpl.
  except_clauses; simpl; first [ by left | right; by exists e ].
Qed.

(** Response validation logs at most one warning and calls nothing. *)
Lemma validate_response_v3_state g sig response st :
  snd (validate_response_v3 str MAX_RESPONSE_LENGTH g sig response st) = st
  \/ exists e,
      snd (validate_response_v3 str MAX_RESPONSE_LENGTH g sig response st)
        = logged (warning_v3 g response e) st.
Proof.
  rewrite validate_response_v3_cases.
  destruct (return_annotation sig) as [ann |]; [| by left].
  destruct (construct ann (unwrap response)) as [v | e]; [by left |].
  destruct (isinstance e TypeSystemError); [right; by exists e | by left].
Qed.

Lemma validate_response_state g (schema : ResourceSchema validator)
    response_validator response st :
  snd (validate_response str MAX_RESPONSE_LENGTH validator g schema
         response_validator response st) = st
  \/ exists e,
      snd (validate_response str MAX_RESPONSE_LENGTH validator g schema
             response_validator response st)
        = logged (warning_http g response e) st.
Proof.
  rewrite validate_response_cases.
  destruct response_validator as [rv |]; [| by left].
  destruct (validate validator schema (unwrap response) rv) as [v | e];
    [by left |].
  destruct (isinstance e SchemaValidationError);
    [right; by exists e | by left].
Qed.

(** The state in which the [try] block of [handle_http_v3] ends. *)
Lemma body_v3_state g args kwargs lg st :
  let merged := merged_v3 g kwargs lg in
  match check_required (required (_doctor_params lg)) merged,
        coerce (_doctor_signature lg) merged merged with
  | Ok _, Ok params =>
      let st1 := called (Call (__name__ lg) args params) st in
      snd (body_v3 g args kwargs lg st) = st1
      \/ exists response e,
          snd (body_v3 g args kwargs lg st)
            = logged (warning_v3 g response e) st1
  | _, _ => snd (body_v3 g args kwargs lg st) = st
  end.
Proof.
  rewrite body_v3_cases. cbv zeta.
  destruct (check_required _ _); [| reflexivity].
  destruct (coerce _ _ _) as [params |]; [| reflexivity].
  destruct (__call__ lg args params) as [response |]; [| by left].
  destruct (validate_response_v3_state g (_doctor_signature lg) response
              (called (Call (__name__ lg) args params) st)) as [H | [e H]].
  - left. destruct (validate_response_v3 _ _ _ _ _ _) as [[] ?]; exact H.
  - right. exists response, e.
    destruct (validate_response_v3 _ _ _ _ _ _) as [[] ?]; exact H.
Qed.

(** The state in which the [try] block of [handle_http] ends. *)
Lemma body_http_state g schema args kwargs lg request_schema
    request_validator response_validator st :
  match kwargs_http validator g schema kwargs request_schema
          request_validator with
  | Ok kw =>
      let st1 := called (Call (__name__ lg) args kw) st in
      snd (body_http g schema args kwargs lg request_schema
             request_validator response_validator st) = st1
      \/ exists response e,
          snd (body_http g schema args kwargs lg request_schema
                 request_validator response_validator st)
            = logged (warning_http g response e) st1
  | Raise _ =>
      snd (body_http g schema args kwargs lg request_schema
             request_validator response_validator st) = st
  end.
Proof.
  rewrite body_http_cases.
  destruct (kwargs_http _ _ _ _ _ _) as [kw |]; [| reflexivity].
  cbv zeta.
  destruct (exec_params lg args kw) as [response |]; [| by left].
  destruct (validate_response_state g schema response_validator response
              (called (Call (__name__ lg) args kw) st)) as [H | [e H]].
  - left. destruct (validate_response _ _ _ _ _ _ _ _) as [[] ?]; exact H.
  - right. exists response, e.
    destruct (validate_response _ _ _ _ _ _ _ _) as [[] ?]; exact H.
Qed.

(** *** Where the parameters come from *)

Lemma json_request_iff (req : Request) :
  json_request req = true <->
  mimetype req = "application/json" /\ method req ∈ ["POST"; "PUT"; "PATCH"].
Proof.
  unfold json_request, HTTP_METHODS_WITH_JSON_BODY.
  rewrite andb_true_iff, bool_decide_eq_true.
  by rewrite String.eqb_eq.
Qed.

Lemma merged_v3_lookup g kwargs lg k :
  NoDup (keys kwargs) ->
  dict_get k (merged_v3 g kwargs lg) =
    match dict_get k kwargs with
    | Some v => Some v
    | None =>
        if bool_decide (k ∈ all (_doctor_params lg)) then
          dict_get k (if json_request (request g) then json (request g)
                      else values (request g))
        else None
    end.
Proof.
  intros Hnd. unfold merged_v3, filter_params.
  rewrite (dict_get_update _ _ _ Hnd).
  destruct (dict_get k kwargs); [reflexivity |].
  exact (dict_get_filter
           (fun x => bool_decide (x ∈ all (_doctor_params lg))) k _).
Qed.

Lemma calls_logged r st : calls (logged r st) = calls st.
Proof. reflexivity. Qed.

Lemma handle_http_v3_calls g handler args kwargs lg allowed_exceptions st :
  calls (snd (handle_http_v3 g handler args kwargs lg allowed_exceptions st))
    = let merged := merged_v3 g kwargs lg in
      match check_required (required (_doctor_params lg)) merged,
            coerce (_doctor_signature lg) merged merged with
      | Ok _, Ok params => calls st ++ [Call (__name__ lg) args params]
      | _, _ => calls st
      end.
Proof.
  assert (calls (snd (handle_http_v3 g handler args kwargs lg
                        allowed_exceptions st))
          = calls (snd (body_v3 g args kwargs lg st))) as ->.
  { destruct (handle_http_v3_state g handler args kwargs lg
                allowed_exceptions st) as [-> | [e ->]]; reflexivity. }
  pose proof (body_v3_state g args kwargs lg st) as H. cbv zeta in *.
  destruct (check_required _ _); [| by rewrite H].
  destruct (coerce _ _ _) as [params |]; [| by rewrite H].
  destruct H as [-> | (response & e & ->)]; reflexivity.
Qed.

Lemma handle_http_calls g schema handler args kwargs lg request_schema
    request_validator response_validator allowed_exceptions st :
  calls (snd (handle_http g schema handler args kwargs lg request_schema
                request_validator response_validator allowed_exceptions st))
    = match kwargs_http validator g schema kwargs request_schema
              request_validator with
      | Ok kw => calls st ++ [Call (__name__ lg) args kw]
      | Raise _ => calls st
      end.
Proof.
  assert (calls (snd (handle_http g schema handler args kwargs lg
                        request_schema request_validator response_validator
                        allowed_exceptions st))
          = calls (snd (body_http g schema args kwargs lg request_schema
                          request_validator response_validator st))) as ->.
  { destruct (handle_http_state g schema handler args kwargs lg
                request_schema request_validator response_validator
                allowed_exceptions st) as [-> | [e ->]]; reflexivity. }
  pose proof (body_http_state g schema args kwargs lg request_schema
                request_validator response_validator st) as H.
  destruct (kwargs_http _ _ _ _ _ _) as [kw |]; [| by rewrite H].
  destruct H as [-> | (response & e & ->)]; reflexivity.
Qed.

(** C5, as amended.  In type-annotation mode ([handle_http_v3]) the
    parameters are read from the parsed JSON body exactly when the mimetype
    is application/json and the verb is POST, PUT or PATCH, and from the
    query and form values otherwise; an entry is kept when its key is one of
    the [all] names of the logic function, and the keyword arguments of the
    router are merged last and win over the request; this merged mapping is
    the one that is checked and coerced, and its coerced form is the one the
    logic function is called with.  In schema mode ([handle_http]) a
    binding with no request schema passes the keyword arguments of the
    router only, and a binding with a request schema passes the JSON body
    (under the same condition) or what the schema's parser makes of the
    query and form values, with the keyword arguments of the router merged
    last and no filtering by [all]. *)
Theorem parameter_source_per_dispatcher :
  (forall g handler args kwargs lg allowed_exceptions st,
      NoDup (keys kwargs) ->
      let req := request g in
      let merged := merged_v3 g kwargs lg in
      (json_request req = true <->
       mimetype req = "application/json"
       /\ method req ∈ ["POST"; "PUT"; "PATCH"])
      /\ (forall k,
            dict_get k merged =
              match dict_get k kwargs with
              | Some v => Some v
              | None =>
                  if bool_decide (k ∈ all (_doctor_params lg)) then
                    dict_get k (if json_request req then json req
                                else values req)
                  else None
              end)
      /\ calls (snd (handle_http_v3 g handler args kwargs lg
                       allowed_exceptions st))
         = match check_required (required (_doctor_params lg)) merged,
                 coerce (_doctor_signature lg) merged merged with
           | Ok _, Ok params => calls st ++ [Call (__name__ lg) args params]
           | _, _ => calls st
           end)
  /\ (forall g schema handler args kwargs lg request_schema
        request_validator response_validator allowed_exceptions st,
        let out :=
          handle_http g schema handler args kwargs lg request_schema
            request_validator response_validator allowed_exceptions st in
        (truthy request_schema = false ->
         calls (snd out) = calls st ++ [Call (__name__ lg) args kwargs])
        /\ (truthy request_schema = true ->
            forall kw,
              calls (snd out) = calls st ++ [Call (__name__ lg) args kw] ->
              exists params,
                (if json_request (request g) then Ok (json (request g))
                 else _parse_params validator schema (values (request g))
                        request_schema) = Ok params
                /\ kw = dict_update params kwargs)).
Proof.
  split.
  - intros * Hnd req merged. split; [apply json_request_iff |].
    split; [intros k; by apply merged_v3_lookup |].
    apply handle_http_v3_calls.
  - intros g schema handler args kwargs lg request_schema request_validator
      response_validator allowed_exceptions st out.
    subst out. rewrite handle_http_calls.
    unfold kwargs_http. split.
    + by intros ->.
    + intros -> kw.
      destruct (if json_request (request g) then _ else _) as [params | e].
      * destruct request_validator as [rv |].
        -- destruct (validate validator schema _ rv).
           ++ intros H. apply app_inv_head in H. exists params.
              split; [reflexivity | congruence].
           ++ intros H. rewrite <- (app_nil_r (calls st)) in H at 1.
              apply app_inv_head in H. discriminate.
        -- intros H. apply app_inv_head in H. exists params.
           split; [reflexivity | congruence].
      * intros H. rewrite <- (app_nil_r (calls st)) in H at 1.
        apply app_inv_head in H. discriminate.
Qed.

(** *** The text of the warning *)

Lemma string_length_append (a b : string) :
  String.length (a +:+ b) = (String.length a + String.length b)%nat.
Proof. induction a as [| c a IH]; simpl; [reflexivity | by rewrite IH]. Qed.

Lemma prefix_slice_length (n : nat) (s : string) :
  (n <= String.length s)%nat -> String.length (prefix_slice n s) = n.
Proof.
  unfold prefix_slice. revert s.
  induction n as [| n IH]; intros [| c s] Hn; simpl in *;
    try reflexivity; try lia.
  rewrite IH; [reflexivity | lia].
Qed.

Lemma prefix_slice_prefix (n : nat) (s : string) :
  String.prefix (prefix_slice n s) s = true.
Proof.
  unfold prefix_slice. revert s.
  induction n as [| n IH]; intros [| c s]; simpl; try reflexivity.
  destruct (ascii_dec c c); [apply IH | congruence].
Qed.

Lemma clip_clipped (s : string) :
  clipped MAX_RESPONSE_LENGTH s (clip MAX_RESPONSE_LENGTH s).
Proof.
  unfold clipped, clip. split.
  - intros Hlong.
    destruct (Nat.ltb_spec MAX_RESPONSE_LENGTH (String.length s)); [| lia].
    exists (prefix_slice MAX_RESPONSE_LENGTH s).
    split; [apply prefix_slice_prefix |].
    split; [apply prefix_slice_length; lia |].
    split; [reflexivity |].
    rewrite string_length_append, prefix_slice_length by lia. reflexivity.
  - intros Hshort.
    destruct (Nat.ltb_spec MAX_RESPONSE_LENGTH (String.length s)); [lia |].
    reflexivity.
Qed.

Lemma log_logged r st : log (logged r st) = log st ++ [r].
Proof. reflexivity. Qed.

Lemma log_called c st : log (called c st) = log st.
Proof. reflexivity. Qed.

(** The warning of the [try] block of [handle_http_v3], with where it
    comes from: the value that the one call of the logic function returned,
    and the error that the return annotation raised on it. *)
Lemma body_v3_warning g args kwargs lg st :
  log (snd (body_v3 g args kwargs lg st)) = log st
  \/ exists params response ann e,
      calls (snd (body_v3 g args kwargs lg st))
        = calls st ++ [Call (__name__ lg) args params]
      /\ __call__ lg args params = Ok response
      /\ return_annotation (_doctor_signature lg) = Some ann
      /\ construct ann (unwrap response) = Raise e
      /\ log (snd (body_v3 g args kwargs lg st))
         = log st ++ [warning_v3 g response e].
Proof.
  rewrite body_v3_cases. cbv zeta.
  destruct (check_required _ _); [| by left].
  destruct (coerce _ _ _) as [params |]; [| by left].
  destruct (__call__ lg args params) as [response |] eqn:Hcall; [| by left].
  rewrite validate_response_v3_cases.
  destruct (return_annotation (_doctor_signature lg)) as [ann |] eqn:Hann;
    [| by left].
  destruct (construct ann (unwrap response)) as [v | e] eqn:Hval;
    [by left |].
  destruct (isinstance e TypeSystemError); [| by left].
  right. exists params, response, ann, e.
  by destruct (should_raise_response_validation_errors g).
Qed.

(** The same for [handle_http]: the value is what [exec_params] returned,
    and the error is what the response validator raised on it. *)
Lemma body_http_warning g schema args kwargs lg request_schema
    request_validator response_validator st :
  log (snd (body_http g schema args kwargs lg request_schema
              request_validator response_validator st)) = log st
  \/ exists kw response rv e,
      calls (snd (body_http g schema args kwargs lg request_schema
                    request_validator response_validator st))
        = calls st ++ [Call (__name__ lg) args kw]
      /\ exec_params lg args kw = Ok response
      /\ response_validator = Some rv
      /\ validate validator schema (unwrap response) rv = Raise e
      /\ log (snd (body_http g schema args kwargs lg request_schema
                     request_validator response_validator st))
         = log st ++ [warning_http g response e].
Proof.
  rewrite body_http_cases.
  destruct (kwargs_http _ _ _ _ _ _) as [kw |]; [| by left].
  cbv zeta.
  destruct (exec_params lg args kw) as [response |] eqn:Hcall; [| by left].
  rewrite validate_response_cases.
  destruct response_validator as [rv |]; [| by left].
  destruct (validate validator schema (unwrap response) rv) as [v | e]
    eqn:Hval; [by left |].
  destruct (isinstance e SchemaValidationError); [| by left].
  right. exists kw, response, rv, e.
  by destruct (raise_response_validation_errors validator schema).
Qed.

(** What the [except] clauses add to the state of the [try] block: no call,
    and at most one record, which is no warning. *)
Lemma handle_http_v3_after_body g handler args kwargs lg allowed_exceptions
    st :
  exists tail,
    calls (snd (handle_http_v3 g handler args kwargs lg allowed_exceptions
                  st))
      = calls (snd (body_v3 g args kwargs lg st))
    /\ log (snd (handle_http_v3 g handler args kwargs lg allowed_exceptions
                   st))
       = log (snd (body_v3 g args kwargs lg st)) ++ tail
    /\ forall m p text ex, LogWarning m p text ex ∉ tail.
Proof.
  destruct (handle_http_v3_state g handler args kwargs lg allowed_exceptions
              st) as [-> | [e0 ->]].
  - exists []. split; [reflexivity |]. split; [by rewrite app_nil_r |].
    intros m p text ex Hin. no_such_record Hin.
  - exists [LogException e0]. split; [reflexivity |].
    split; [reflexivity |].
    intros m p text ex Hin. no_such_record Hin.
Qed.

Lemma handle_http_after_body g schema handler args kwargs lg request_schema
    request_validator response_validator allowed_exceptions st :
  exists tail,
    calls (snd (handle_http g schema handler args kwargs lg request_schema
                  request_validator response_validator allowed_exceptions
                  st))
      = calls (snd (body_http g schema args kwargs lg request_schema
                      request_validator response_validator st))
    /\ log (snd (handle_http g schema handler args kwargs lg request_schema
                   request_validator response_validator allowed_exceptions
                   st))
       = log (snd (body_http g schema args kwargs lg request_schema
                       request_validator response_validator st)) ++ tail
    /\ forall m p text ex, LogWarning m p text ex ∉ tail.
Proof.
  destruct (handle_http_state g schema handler args kwargs lg request_schema
              request_validator response_validator allowed_exceptions st)
    as [-> | [e0 ->]].
  - exists []. split; [reflexivity |]. split; [by rewrite app_nil_r |].
    intros m p text ex Hin. no_such_record Hin.
  - exists [LogException e0]. split; [reflexivity |].
    split; [reflexivity |].
    intros m p text ex Hin. no_such_record Hin.
Qed.

(** C7: every warning a dispatch adds to the log carries the stringified
    response of that dispatch, clipped at [MAX_RESPONSE_LENGTH].  The
    response is the value that the one recorded call returned and that
    response validation rejected with the logged error: in
    [handle_http_v3] the string is [str] of the validated value (the
    content of an envelope, the returned value otherwise), in [handle_http]
    it is the text of the returned object itself.  When this string is
    longer than the limit, the logged text is exactly its first
    [MAX_RESPONSE_LENGTH] characters followed by "...", so
    [MAX_RESPONSE_LENGTH + 3] characters and never more; when it is at or
    below the limit, the logged text is the whole string and no marker. *)
Theorem logged_response_is_clipped :
  (forall g handler args kwargs lg allowed_exceptions st,
      let out :=
        handle_http_v3 g handler args kwargs lg allowed_exceptions st in
      exists new,
        log (snd out) = log st ++ new
        /\ forall m p text ex,
            LogWarning m p text ex ∈ new ->
            exists params response ann,
              calls (snd out) = calls st ++ [Call (__name__ lg) args params]
              /\ __call__ lg args params = Ok response
              /\ return_annotation (_doctor_signature lg) = Some ann
              /\ construct ann (unwrap response) = Raise ex
              /\ m = method (request g) /\ p = path (request g)
              /\ clipped MAX_RESPONSE_LENGTH (str (Raw (unwrap response)))
                   text)
  /\ (forall g schema handler args kwargs lg request_schema
        request_validator response_validator allowed_exceptions st,
        let out :=
          handle_http g schema handler args kwargs lg request_schema
            request_validator response_validator allowed_exceptions st in
        exists new,
          log (snd out) = log st ++ new
          /\ forall m p text ex,
              LogWarning m p text ex ∈ new ->
              exists kw response rv,
                calls (snd out) = calls st ++ [Call (__name__ lg) args kw]
                /\ exec_params lg args kw = Ok response
                /\ response_validator = Some rv
                /\ validate validator schema (unwrap response) rv = Raise ex
                /\ m = method (request g) /\ p = path (request g)
                /\ clipped MAX_RESPONSE_LENGTH (str response) text).
Proof.
  split.
  - intros. subst out.
    destruct (handle_http_v3_after_body g handler args kwargs lg
                allowed_exceptions st) as (tail & -> & -> & Htail).
    destruct (body_v3_warning g args kwargs lg st)
      as [-> | (params & response & ann & e & -> & Hcall & Hann & Hval & ->)].
    + exists tail. split; [reflexivity |].
      intros m p text ex Hin. by destruct (Htail m p text ex).
    + exists (warning_v3 g response e :: tail).
      split; [by rewrite <- app_assoc |].
      intros m p text ex Hin.
      apply elem_of_cons in Hin as [Heq | Hin];
        [| by destruct (Htail m p text ex)].
      injection Heq as -> -> -> ->.
      exists params, response, ann.
      repeat (split; [done |]). apply clip_clipped.
  - intros. subst out.
    destruct (handle_http_after_body g schema handler args kwargs lg
                request_schema request_validator response_validator
                allowed_exceptions st) as (tail & -> & -> & Htail).
    destruct (body_http_warning g schema args kwargs lg request_schema
                request_validator response_validator st)
      as [-> | (kw & response & rv & e & -> & Hcall & Hrv & Hval & ->)].
    + exists tail. split; [reflexivity |].
      intros m p text ex Hin. by destruct (Htail m p text ex).
    + exists (warning_http g response e :: tail).
      split; [by rewrite <- app_assoc |].
      intros m p text ex Hin.
      apply elem_of_cons in Hin as [Heq | Hin];
        [| by destruct (Htail m p text ex)].
      injection Heq as -> -> -> ->.
      exists kw, response, rv.
      repeat (split; [done |]). apply clip_clipped.
Qed.

(** *** Response validation that fails *)

(** When [should_raise_response_validation_errors] answers yes. *)
Lemma raise_policy_v3 (g : Globals) :
  should_raise_response_validation_errors g = true <->
  debug g = true
  \/ exists s, environ g !! "RAISE_RESPONSE_VALIDATION_ERRORS" = Some s
              /\ s <> "".
Proof.
  unfold should_raise_response_validation_errors, str_truthy.
  rewrite orb_true_iff. split.
  - intros [Hd | He]; [by left | right].
    destruct (environ g !! "RAISE_RESPONSE_VALIDATION_ERRORS") as [s |];
      [| discriminate].
    exists s. split; [reflexivity |].
    intros ->. discriminate.
  - intros [Hd | (s & -> & Hs)]; [by left | right].
    destruct (String.eqb_spec s ""); [congruence | reflexivity].
Qed.

(** In type-annotation mode a response that its return annotation rejects
    with a type-system error is, under a policy that is off, logged and
    returned as usual. *)
Lemma soft_failure_v3 g handler args kwargs lg allowed_exceptions st
    params response ann e :
  check_required (required (_doctor_params lg)) (merged_v3 g kwargs lg)
    = Ok tt ->
  coerce (_doctor_signature lg) (merged_v3 g kwargs lg)
    (merged_v3 g kwargs lg) = Ok params ->
  __call__ lg args params = Ok response ->
  return_annotation (_doctor_signature lg) = Some ann ->
  construct ann (unwrap response) = Raise e ->
  isinstance e TypeSystemError = true ->
  should_raise_response_validation_errors g = false ->
  handle_http_v3 g handler args kwargs lg allowed_exceptions st
    = (Ok (shape (request g) response),
       logged (warning_v3 g response e)
         (called (Call (__name__ lg) args params) st)).
Proof.
  intros Hreq Hco Hcall Hann Hval Hts Hpol.
  unfold flask.handle_http_v3, try_except.
  rewrite body_v3_cases. cbv zeta.
  rewrite Hreq, Hco, Hcall, validate_response_v3_cases, Hann, Hval, Hts, Hpol.
  reflexivity.
Qed.

(** The same in schema mode, where the policy is the flag of the resource
    schema. *)
Lemma soft_failure_http g schema handler args kwargs lg request_schema
    request_validator rv allowed_exceptions st kw response e :
  kwargs_http validator g schema kwargs request_schema request_validator
    = Ok kw ->
  exec_params lg args kw = Ok response ->
  validate validator schema (unwrap response) rv = Raise e ->
  isinstance e SchemaValidationError = true ->
  raise_response_validation_errors validator schema = false ->
  handle_http g schema handler args kwargs lg request_schema
    request_validator (Some rv) allowed_exceptions st
    = (Ok (shape (request g) response),
       logged (warning_http g response e)
         (called (Call (__name__ lg) args kw) st)).
Proof.
  intros Hkw Hcall Hval Hsv Hpol.
  unfold flask.handle_http, try_except.
  rewrite body_http_cases, Hkw. cbv zeta.
  rewrite Hcall, validate_response_cases, Hval, Hsv, Hpol.
  reflexivity.
Qed.

End DispatchFacts.

(** ** Route synthesis *)

Section RoutingFacts.
Import flask routing.

Variable str : pyobj -> string.
Variable MAX_RESPONSE_LENGTH : nat.
Variable validator : Type.
Variable exec_params : logic_fn -> list value -> dict -> outcome pyobj.

Local Abbreviation create_http_method :=
  (create_http_method str MAX_RESPONSE_LENGTH validator exec_params).
Local Abbreviation add_method :=
  (add_method str MAX_RESPONSE_LENGTH validator exec_params).
Local Abbreviation create_routes :=
  (create_routes str MAX_RESPONSE_LENGTH validator exec_params).

(** The callable of a binding. *)
Local Abbreviation callable_of m :=
  (AFunc (create_http_method (logic m) (verb_name (method m)))).

(** The loop over the bindings that follow the first one. *)
Lemma add_methods_later (r : Route) (ms : list HTTPMethod) (h0 : handler_type) :
  exists h,
    fold_left (add_method r) ms (Some h0) = Some h
    /\ type_name h = type_name h0
    /\ type_bases h = type_bases h0
    /\ view_methods h
       = (fun l0 => l0 ++ map (fun m => upper (verb_name (method m))) ms)
           <$> view_methods h0
    /\ namespace h
       = fold_left
           (fun ns m => dict_setitem (verb_name (method m)) (callable_of m) ns)
           ms (namespace h0).
Proof.
  revert h0. induction ms as [| m ms IH]; intros h0; simpl.
  - exists h0. repeat split; try done.
    destruct (view_methods h0); simpl; [| done].
    by rewrite app_nil_r.
  - destruct (IH (append_method
                    (setattr h0 (verb_name (method m))
                       (callable_of m))
                    (upper (verb_name (method m)))))
      as (h & Hfold & Hname & Hbases & Hmeth & Hns).
    exists h. split; [exact Hfold |].
    unfold append_method, setattr in *. simpl in *.
    destruct (view_methods h0) as [l0 |]; simpl in *.
    + repeat split; try done. by rewrite Hmeth, <- app_assoc.
    + repeat split; done.
Qed.

(** The namespace after the later bindings: a verb names the callable of
    the last binding that declares it. *)
Lemma namespace_lookup (ms : list HTTPMethod) (ns0 : odict attr) (k : string) :
  let ns :=
    fold_left
      (fun ns m => dict_setitem (verb_name (method m)) (callable_of m) ns)
      ms ns0 in
  (exists m, m ∈ ms /\ verb_name (method m) = k
             /\ dict_get k ns = Some (callable_of m))
  \/ ((forall m, m ∈ ms -> verb_name (method m) <> k)
      /\ dict_get k ns = dict_get k ns0).
Proof.
  revert ns0. induction ms as [| m ms IH]; intros ns0; simpl.
  - right. split; [| reflexivity].
    intros m Hm. by apply not_elem_of_nil in Hm.
  - destruct (IH (dict_setitem (verb_name (method m)) (callable_of m) ns0))
      as [(m' & Hin & Hk & Hget) | [Hnone Hget]].
    + left. exists m'. split; [by apply list_elem_of_further | done].
    + rewrite dict_get_setitem in Hget.
      destruct (String.eqb_spec k (verb_name (method m))) as [-> | Hne].
      * left. exists m. split; [apply list_elem_of_here | done].
      * right. split; [| exact Hget].
        intros m' Hm'. apply elem_of_cons in Hm' as [-> | Hm'];
          [congruence | by apply Hnone].
Qed.

Lemma first_namespace (name : string) (heading : option string)
    (m : HTTPMethod) :
  dict_setitem (verb_name (method m)) (callable_of m)
    [("__name__", AStr (Some name)); ("_doctor_heading", AStr heading)]
  = [("__name__", AStr (Some name)); ("_doctor_heading", AStr heading);
     (verb_name (method m), callable_of m)].
Proof. by destruct (method m). Qed.

Lemma add_method_first (r : Route) (m : HTTPMethod) :
  add_method r None m
  = Some (new_type (or_else (handler_name r) (__name__ (logic m)))
            (base_handler_class r)
            [("__name__",
              AStr (Some (or_else (handler_name r) (__name__ (logic m)))));
             ("_doctor_heading", AStr (heading r));
             (verb_name (method m), callable_of m)]).
Proof. unfold routing.add_method. by rewrite first_namespace. Qed.

(** The handler type of a route that has a first binding. *)
Lemma handler_of_route (r : Route) (m : HTTPMethod) (ms : list HTTPMethod) :
  methods r = m :: ms ->
  exists h,
    fold_left (add_method r) (methods r) None = Some h
    /\ type_name h = or_else (handler_name r) (__name__ (logic m))
    /\ type_bases h = [base_handler_class r]
    /\ view_methods h
       = (fun l0 => l0 ++ map (fun m' => upper (verb_name (method m'))) ms)
           <$> init_methods (base_handler_class r)
                 ["__name__"; "_doctor_heading"; verb_name (method m)]
    /\ (forall m', m' ∈ methods r ->
        exists m'', m'' ∈ methods r /\ method m'' = method m'
                    /\ dict_get (verb_name (method m')) (namespace h)
                       = Some (callable_of m'')).
Proof.
  intros Hms. rewrite Hms. cbn [fold_left]. rewrite add_method_first.
  set (h0 := new_type _ _ _).
  destruct (add_methods_later r ms h0) as (h & Hfold & Hname & Hbases & Hmeth
                                           & Hns).
  exists h. split; [exact Hfold |].
  split; [by rewrite Hname |].
  split; [by rewrite Hbases |].
  split; [by rewrite Hmeth |].
  intros m' Hm'. rewrite Hns.
  destruct (namespace_lookup ms (namespace h0) (verb_name (method m')))
    as [(m'' & Hin & Hk & Hget) | [Hnone Hget]].
  - exists m''. split; [by apply list_elem_of_further |].
    split; [| exact Hget].
    destruct (method m''), (method m'); simpl in Hk; congruence.
  - apply elem_of_cons in Hm' as [-> | Hm'].
    + exists m. split; [apply list_elem_of_here |].
      split; [reflexivity |].
      rewrite Hget. subst h0. simpl.
      by destruct (method m).
    + by destruct (Hnone m' Hm').
Qed.

Lemma or_else_given (x : option string) (y n : string) :
  x = Some n -> n <> "" -> or_else x y = n.
Proof.
  intros -> Hn. unfold or_else, str_truthy.
  destruct (String.eqb_spec n ""); [congruence | reflexivity].
Qed.

Lemma or_else_missing (x : option string) (y : string) :
  x = None \/ x = Some "" -> or_else x y = y.
Proof. by intros [-> | ->]. Qed.

Lemma map_lookup {A B} (f : A -> B) (l : list A) (i : nat) :
  map f l !! i = f <$> (l !! i).
Proof.
  revert i. induction l as [| x l IH]; intros [| i]; simpl; try done.
Qed.

(** C8, as amended: [create_routes] returns one pair per route, in the
    order of the input, whose first component is the path of the route.  For
    a route with at least one binding the second component is a handler
    type whose only base is the base handler class of the route; it is
    named by [handler_name] when that is given and not empty, and by the
    name of the logic function of the first binding otherwise; under the
    verb of every binding it holds a callable made by
    [create_http_method] for a binding of that verb; and when the type has a
    [methods] list, that list is the one the type was created with,
    followed by the upper-cased verbs of the bindings after the first, in
    the order they are declared.  For a route with no binding the second
    component is [None]. *)
Theorem create_routes_handlers (routes : list Route) :
  map fst (create_routes routes) = map route routes
  /\ forall i r,
      routes !! i = Some r ->
      (methods r = [] -> create_routes routes !! i = Some (route r, None))
      /\ (forall m ms,
            methods r = m :: ms ->
            exists h,
              create_routes routes !! i = Some (route r, Some h)
              /\ type_bases h = [base_handler_class r]
              /\ (forall n, handler_name r = Some n -> n <> "" ->
                            type_name h = n)
              /\ (handler_name r = None \/ handler_name r = Some "" ->
                  type_name h = __name__ (logic m))
              /\ (forall m', m' ∈ methods r ->
                  exists m'',
                    m'' ∈ methods r /\ method m'' = method m'
                    /\ dict_get (verb_name (method m')) (namespace h)
                       = Some (AFunc (create_http_method (logic m'')
                                        (verb_name (method m'')))))
              /\ view_methods h
                 = (fun l0 =>
                      l0 ++ map (fun m' => upper (verb_name (method m'))) ms)
                     <$> init_methods (base_handler_class r)
                           ["__name__"; "_doctor_heading";
                            verb_name (method m)]).
Proof.
  split.
  - unfold routing.create_routes. rewrite map_map. reflexivity.
  - intros i r Hr. unfold routing.create_routes.
    rewrite map_lookup, Hr. simpl. split.
    + by intros ->.
    + intros m ms Hms.
      destruct (handler_of_route r m ms Hms)
        as (h & Hfold & Hname & Hbases & Hmeth & Hns).
      exists h. rewrite Hfold.
      split; [reflexivity |].
      split; [exact Hbases |].
      split; [intros n Hn Hne; rewrite Hname; by apply or_else_given |].
      split; [intros Hn; rewrite Hname; by apply or_else_missing |].
      split; [exact Hns | exact Hmeth].
Qed.

(** *** Calling a synthesized callable *)

Lemma create_http_method_arity lg http_method g handler args kwargs st :
  fn (create_http_method lg http_method) g handler args kwargs st
  = (Raise four_arguments_for_nine, st).
Proof. reflexivity. Qed.

(** Every callable of a handler type comes from [create_http_method]. *)
Lemma namespace_callables (ms : list HTTPMethod) (ns0 : odict attr) :
  (forall k f, dict_get k ns0 = Some (AFunc f) ->
               exists lg v, f = create_http_method lg v) ->
  forall k f,
    dict_get k
      (fold_left
         (fun ns m => dict_setitem (verb_name (method m)) (callable_of m) ns)
         ms ns0) = Some (AFunc f) ->
    exists lg v, f = create_http_method lg v.
Proof.
  intros H0 k f Hget.
  destruct (namespace_lookup ms ns0 k) as [(m & _ & _ & Hm) | [_ Hsame]];
    cbv zeta in *.
  - rewrite Hm in Hget. injection Hget as <-. by eexists _, _.
  - rewrite Hsame in Hget. by apply (H0 k).
Qed.

Lemma route_callables (r : Route) (h : handler_type) (k : string)
    (f : handler_fn) :
  fold_left (add_method r) (methods r) None = Some h ->
  dict_get k (namespace h) = Some (AFunc f) ->
  exists lg v, f = create_http_method lg v.
Proof.
  destruct (methods r) as [| m ms] eqn:Hms; [discriminate |].
  cbn [fold_left]. rewrite add_method_first.
  set (h0 := new_type _ _ _).
  destruct (add_methods_later r ms h0) as (h' & Hfold & _ & _ & _ & Hns).
  rewrite Hfold. intros [= <-]. rewrite Hns.
  apply namespace_callables.
  intros k' f'. subst h0. simpl.
  destruct (String.eqb k' "__name__"); [discriminate |].
  destruct (String.eqb k' "_doctor_heading"); [discriminate |].
  destruct (String.eqb k' (verb_name (method m))); [| discriminate].
  intros [= <-]. by eexists _, _.
Qed.

(** C9: [doctor.flask.handle_http] declares nine parameters, and a callable
    made by [create_http_method] calls it with four positional arguments
    (handler, args, kwargs, logic).  So calling any callable of any handler
    type that [create_routes] returns raises the [TypeError] of the call,
    whatever the request is, and leaves the state as it was: the body of the
    dispatcher does not start, nothing is logged and the logic function is
    not called. *)
Theorem synthesized_callables_raise_arity_error (routes : list Route)
    (path : string) (h : handler_type) (k : string) (f : handler_fn) :
  (path, Some h) ∈ create_routes routes ->
  dict_get k (namespace h) = Some (AFunc f) ->
  length handle_http_formals = 9
  /\ forall g handler args kwargs st,
      fn f g handler args kwargs st
      = (Raise four_arguments_for_nine, st).
Proof.
  intros Hin Hget. split; [reflexivity |].
  unfold routing.create_routes in Hin.
  apply list_elem_of_In, in_map_iff in Hin as (r & [= _ Hfold] & _).
  destruct (route_callables r h k f Hfold Hget) as (lg & v & ->).
  intros. apply create_http_method_arity.
Qed.

End RoutingFacts.

(** ** The signature introspector *)

Section IntrospectionFacts.
Import introspection.

Lemma keys_filter {A} (P : string * A -> bool) (d : odict A) (x : string) :
  x ∈ keys (List.filter P d) <->
  exists a, (x, a) ∈ d /\ P (x, a) = true.
Proof.
  unfold keys. rewrite list_elem_of_In, in_map_iff. split.
  - intros ([k a] & <- & Hin). apply filter_In in Hin as [Hin HP].
    exists a. split; [by apply list_elem_of_In | exact HP].
  - intros (a & Hin & HP). exists (x, a). split; [reflexivity |].
    apply filter_In. split; [by apply list_elem_of_In | exact HP].
Qed.

Lemma keys_member {A} (d : odict A) (x : string) (a : A) :
  (x, a) ∈ d -> x ∈ keys d.
Proof.
  intros Hin. unfold keys. apply list_elem_of_In, in_map_iff.
  exists (x, a). split; [reflexivity | by apply list_elem_of_In].
Qed.

(** A name has one entry in an ordered mapping. *)
Lemma unique_entry {A} (d : odict A) (x : string) (a b : A) :
  NoDup (keys d) -> (x, a) ∈ d -> (x, b) ∈ d -> a = b.
Proof.
  induction d as [| [k v] d IH]; simpl; intros Hnd Ha Hb.
  - by apply not_elem_of_nil in Ha.
  - apply NoDup_cons in Hnd as [Hnin Hnd].
    apply elem_of_cons in Ha as [Ha | Ha];
      apply elem_of_cons in Hb as [Hb | Hb].
    + congruence.
    + inversion Ha; subst. destruct Hnin. by apply (keys_member d k b).
    + inversion Hb; subst. destruct Hnin. by apply (keys_member d k a).
    + by apply IH.
Qed.

(** C10: for every callable whose real signature has no repeated name, the
    parameter set that [get_params_from_func] resolves has its required
    names among its [all] names and none of them among its optional names;
    for a function with no parameters the four fields are empty; and a
    parameter of the real signature whose annotation is not a validating
    type, as is one that a wrapping decorator passes in, is in [all] and in
    [logic] and is never required. *)
Theorem parameter_set_invariants (f : callable) :
  well_formed f ->
  let p := get_params_from_func f in
  (forall x, x ∈ required p -> x ∈ all p)
  /\ (forall x, x ∈ required p -> x ∉ optional p)
  /\ (forall sig,
        real_signature f = Some sig -> parameters sig = [] ->
        p = mkParams [] [] [] [])
  /\ (forall sig name prm,
        real_signature f = Some sig ->
        (name, prm) ∈ parameters sig ->
        validating prm = false ->
        name ∈ all p /\ name ∈ logic p /\ name ∉ required p).
Proof.
  intros Hwf p. subst p. unfold get_params_from_func.
  destruct (real_signature f) as [sig |] eqn:Hsig.
  - specialize (Hwf sig Hsig). simpl.
    split; [| split; [| split]].
    + intros x Hx. apply keys_filter in Hx as (a & Hin & _).
      by apply (keys_member _ x a).
    + intros x Hx Hopt.
      apply keys_filter in Hx as (a & Ha & Hreq).
      apply keys_filter in Hopt as (b & Hb & Hdef).
      rewrite (unique_entry _ x a b Hwf Ha Hb) in Hreq.
      simpl in *. rewrite Hdef in Hreq. discriminate.
    + intros sig' [= <-] Hnil. by rewrite Hnil.
    + intros sig' name prm [= <-] Hin Hval.
      split; [by apply (keys_member _ name prm) |].
      split; [by apply (keys_member _ name prm) |].
      intros Hreq.
      apply keys_filter in Hreq as (a & Ha & Hreq).
      rewrite (unique_entry _ name a prm Hwf Ha Hin) in Hreq.
      simpl in *. rewrite Hval, andb_false_r in Hreq. discriminate.
  - simpl. split; [| split; [| split]]; try discriminate.
    + intros x Hx. by apply not_elem_of_nil in Hx.
    + intros x Hx. by apply not_elem_of_nil in Hx.
Qed.

End IntrospectionFacts.

(** ** Runs on the objects of the test suite *)

Section Runs.
Import errors constants flask spec samples.

Local Abbreviation handle_http_v3 := (handle_http_v3 show limit).
Local Abbreviation body_v3 := (body_v3 show limit).
Local Abbreviation handle_http := (handle_http show limit unit exec_all).
Local Abbreviation body_http := (body_http show limit unit exec_all).

(** An invalid-value error with an [errors] payload, raised by the logic
    function, leaves [handle_http_v3] as a 400 that carries the payload. *)
Lemma exception_translation_run :
  let e := Exc InvalidValueError "name is too short"
             (Some (VDict [("name", VStr "too short")])) in
  let g := globals_of (request_of "text/plain" "GET" [] []) in
  let st' := State [] [Call "failing" [] []] in
  body_v3 g [] [] (failing e) st0 = (Raise e, st')
  /\ first_match_translation bad_request_v3 g None e st'
       (handle_http_v3 g the_handler [] [] (failing e) None st0)
  /\ handle_http_v3 g the_handler [] [] (failing e) None st0
     = (Raise (HTTP400Exception (inl e)
                 (Some (VDict [("name", VStr "too short")]))), st').
Proof.
  split; [reflexivity |].
  split; [| reflexivity].
  apply (proj1 (exception_translation_per_dispatcher show limit unit exec_all)).
  reflexivity.
Defined.

(** A parse error is not in the 400 row of [handle_http_v3], and a
    type-system error is not in the 400 row of [handle_http]: with debug off
    and no allow-list each becomes a 500.  [KeyboardInterrupt], which does
    not derive from [Exception], goes through [handle_http_v3] as it is. *)
Lemma translation_differs_per_dispatcher :
  let g := globals_of (request_of "text/plain" "GET" [] []) in
  let parse := Exc ParseError "bad body" None in
  let typing := Exc TypeSystemError "Must be a string." None in
  let interrupt := Exc KeyboardInterrupt "" None in
  handle_http_v3 g the_handler [] [] (failing parse) None st0
  = (Raise (HTTP500Exception (inr "Uncaught error in logic function")),
     State [LogException parse] [Call "failing" [] []])
  /\ handle_http g no_schema the_handler [] [] (failing typing) VNone None
       None None st0
     = (Raise (HTTP500Exception (inr "Uncaught error in logic function")),
        State [LogException typing] [Call "failing" [] []])
  /\ handle_http_v3 g the_handler [] [] (failing interrupt) None st0
     = (Raise interrupt, State [] [Call "failing" [] []]).
Proof. repeat split. Qed.


(** A POST of the JSON body {"name": "a"} to [create_foo] is answered with
    the value the logic function returns and the status 201. *)
Lemma successful_reply_run :
  let g := globals_of (request_of "application/json" "POST"
                         [("name", VStr "a")] []) in
  let st' := State [] [Call "create_foo" [] [("name", VStr "a")]] in
  handle_http_v3 g the_handler [] [] create_foo None st0
    = (Ok (Reply2 (VStr "") 201), st')
  /\ exists params response,
      calls st' = calls st0 ++ [Call (__name__ create_foo) [] params]
      /\ __call__ create_foo [] params = Ok response
      /\ Reply2 (VStr "") 201
         = (let status :=
              if String.eqb (method (request g)) "POST" then 201
              else if String.eqb (method (request g)) "DELETE" then 204
              else 200 in
            match response with
            | Response content headers => Reply3 content status headers
            | Raw v => Reply2 v status
            end).
Proof.
  split; [reflexivity |].
  apply (proj1 (successful_reply_shape show limit unit exec_all)
           (globals_of (request_of "application/json" "POST"
                          [("name", VStr "a")] []))
           the_handler [] [] create_foo None st0).
  reflexivity.
Defined.

(** The same binding with the empty body: the 400 names [name], and the
    logic function is not called. *)
Lemma missing_required_parameter_run :
  let g := globals_of (request_of "application/json" "POST" [] []) in
  "name" ∈ required (_doctor_params create_foo)
  /\ dict_mem "name" (merged_v3 g [] create_foo) = false
  /\ exists pre r post,
      required (_doctor_params create_foo) = pre ++ r :: post
      /\ Forall (fun x => dict_mem x (merged_v3 g [] create_foo) = true) pre
      /\ dict_mem r (merged_v3 g [] create_foo) = false
      /\ handle_http_v3 g the_handler [] [] create_foo None st0
         = (Raise (HTTP400Exception
                     (inl (Exc InvalidValueError (r +:+ " is required.") None))
                     None),
            st0).
Proof.
  split; [apply list_elem_of_here |].
  split; [reflexivity |].
  apply (missing_required_parameter show limit
           (globals_of (request_of "application/json" "POST" [] []))
           the_handler [] [] create_foo None st0 "name").
  - apply list_elem_of_here.
  - reflexivity.
Defined.

(** In schema mode a binding with no request schema does not read the
    request: the JSON body {"name": "a"} of a POST does not reach
    [create_foo], while the mapping built from the JSON body, filtered by
    [all] and merged with the keyword arguments, holds it. *)
Lemma schema_mode_without_request_schema :
  let g := globals_of (request_of "application/json" "POST"
                         [("name", VStr "a")] []) in
  calls (snd (handle_http g no_schema the_handler [] [] create_foo VNone None
                None None st0))
  = [Call "create_foo" [] []]
  /\ merged_v3 g [] create_foo = [("name", VStr "a")]
  /\ calls (snd (handle_http_v3 g the_handler [] [] create_foo None st0))
     = [Call "create_foo" [] [("name", VStr "a")]].
Proof. repeat split. Qed.

(** A PUT whose JSON body names the foo and a field that [update_foo] does
    not take, on a route that captures the foo id. *)
Lemma parameter_source_run :
  let g := globals_of (request_of "application/json" "PUT"
                         [("name", VStr "a"); ("foo_id", VInt 9);
                          ("color", VStr "red")] []) in
  let kwargs := [("foo_id", VInt 1)] in
  NoDup (keys kwargs)
  /\ (forall k,
        dict_get k (merged_v3 g kwargs update_foo) =
          match dict_get k kwargs with
          | Some v => Some v
          | None =>
              if bool_decide (k ∈ all (_doctor_params update_foo)) then
                dict_get k (if json_request (request g) then json (request g)
                            else values (request g))
              else None
          end)
  /\ merged_v3 g kwargs update_foo = [("name", VStr "a"); ("foo_id", VInt 1)].
Proof.
  split; [apply NoDup_singleton |].
  split; [| reflexivity].
  apply (proj1 (parameter_source_per_dispatcher show limit unit exec_all)
           (globals_of (request_of "application/json" "PUT"
                          [("name", VStr "a"); ("foo_id", VInt 9);
                           ("color", VStr "red")] []))
           the_handler [] [("foo_id", VInt 1)] update_foo None st0).
  apply NoDup_singleton.
Defined.

(** C6, on the code: with [RAISE_RESPONSE_VALIDATION_ERRORS] set to the
    empty string and debug off, the variable is set and
    [should_raise_response_validation_errors] still answers no; a GET whose
    response fails validation is then logged and answered with the status
    200. *)
Lemma empty_environment_variable_does_not_raise :
  let g := mkGlobals (request_of "text/plain" "GET" [] []) ∅
             (<["RAISE_RESPONSE_VALIDATION_ERRORS" := ""]> ∅) in
  is_Some (environ g !! "RAISE_RESPONSE_VALIDATION_ERRORS")
  /\ should_raise_response_validation_errors g = false
  /\ handle_http_v3 g the_handler [] [] get_foos None st0
     = (Ok (Reply2 (VInt 7) 200),
        State [LogWarning "GET" "/foo" "<int..."
                 (Exc TypeSystemError "Must be a string." None)]
          [Call "get_foos" [] []]).
Proof.
  split; [by eexists |].
  split; reflexivity.
Qed.

(** The warning of that run, under the limit of four characters. *)
Lemma logged_response_run :
  let g := globals_of (request_of "text/plain" "GET" [] []) in
  log (snd (handle_http_v3 g the_handler [] [] get_foos None st0))
  = [LogWarning "GET" "/foo" "<int..."
       (Exc TypeSystemError "Must be a string." None)]
  /\ __call__ get_foos [] [] = Ok (Raw (VInt 7))
  /\ show (Raw (VInt 7)) = "<int>"
  /\ exists new,
      log (snd (handle_http_v3 g the_handler [] [] get_foos None st0))
        = log st0 ++ new
      /\ forall m p text ex,
          LogWarning m p text ex ∈ new ->
          exists params response ann,
            calls (snd (handle_http_v3 g the_handler [] [] get_foos None
                          st0))
              = calls st0 ++ [Call (__name__ get_foos) [] params]
            /\ __call__ get_foos [] params = Ok response
            /\ return_annotation (_doctor_signature get_foos) = Some ann
            /\ construct ann (unwrap response) = Raise ex
            /\ m = method (request g) /\ p = path (request g)
            /\ clipped limit (show (Raw (unwrap response))) text.
Proof.
  split; [reflexivity |].
  split; [reflexivity |].
  split; [reflexivity |].
  apply (proj1 (logged_response_is_clipped show limit unit exec_all)
           (globals_of (request_of "text/plain" "GET" [] []))
           the_handler [] [] get_foos None st0).
Defined.

End Runs.

Section RouteRuns.
Import flask routing introspection samples.

Local Abbreviation create_routes := (create_routes show limit unit exec_all).
Local Abbreviation create_http_method :=
  (create_http_method show limit unit exec_all).

(** What the tests look at in a handler type. *)
Local Abbreviation summary routes :=
  (map (fun ph : string * option handler_type =>
          (fst ph,
           option_map
             (fun h => (type_name h, keys (namespace h), view_methods h))
             (snd ph)))
     routes).

(** The routes of [test_create_routes]. *)
Lemma create_routes_run :
  summary (create_routes foo_routes)
  = [("^/foo/?$",
      Some ("MyHandler", ["__name__"; "_doctor_heading"; "get"; "post"],
            Some ["GET"; "POST"]));
     ("^/foo/<int:foo_id>/?$",
      Some ("delete_foo",
            ["__name__"; "_doctor_heading"; "delete"; "get"; "put"],
            Some ["DELETE"; "GET"; "PUT"]))]
  /\ map fst (create_routes foo_routes) = map route foo_routes
  /\ forall i r,
      foo_routes !! i = Some r ->
      forall m ms,
        methods r = m :: ms ->
        exists h,
          create_routes foo_routes !! i = Some (route r, Some h)
          /\ type_bases h = [base_handler_class r].
Proof.
  split; [reflexivity |].
  destruct (create_routes_handlers show limit unit exec_all foo_routes)
    as [Hpaths Hall].
  split; [exact Hpaths |].
  intros i r Hr m ms Hms.
  destruct (proj2 (Hall i r Hr) m ms Hms) as (h & Hh & Hbases & _).
  by exists h.
Defined.

(** A route with no binding gets [None] in place of a handler type; a
    handler name that is the empty string is replaced by the name of the
    first logic function; and on a base that keeps no [methods] list the
    verbs after the first are attached and no list is extended. *)
Lemma route_without_binding_or_name :
  create_routes [bare_route] = [("^/bare/?$", None)]
  /\ handler_name unnamed_route = Some ""
  /\ summary (create_routes [unnamed_route])
     = [("^/foo/?$",
         Some ("get_foos", ["__name__"; "_doctor_heading"; "get"],
               Some ["GET"]))]
  /\ summary (create_routes [plain_route])
     = [("^/foo/?$",
         Some ("get_foos", ["__name__"; "_doctor_heading"; "get"; "post"],
               None))].
Proof. repeat split. Qed.

(** The [post] callable of a handler type built for [create_foo]. *)
Lemma synthesized_callable_run :
  let r := mkRoute "^/foo/?$" [mkHTTPMethod Post create_foo] None Resource
             None in
  let f := create_http_method create_foo "post" in
  let h := mkType "create_foo" [Resource]
             [("__name__", AStr (Some "create_foo"));
              ("_doctor_heading", AStr None); ("post", AFunc f)]
             (Some ["POST"]) in
  ("^/foo/?$", Some h) ∈ create_routes [r]
  /\ dict_get "post" (namespace h) = Some (AFunc f)
  /\ forall g handler args kwargs st,
      fn f g handler args kwargs st
      = (Raise four_arguments_for_nine, st).
Proof.
  cbv zeta.
  assert (("^/foo/?$",
           Some (mkType "create_foo" [Resource]
                   [("__name__", AStr (Some "create_foo"));
                    ("_doctor_heading", AStr None);
                    ("post", AFunc (create_http_method create_foo "post"))]
                   (Some ["POST"])))
          ∈ create_routes
              [mkRoute "^/foo/?$" [mkHTTPMethod Post create_foo] None Resource
                 None]) as Hin.
  { apply list_elem_of_here. }
  split; [exact Hin |].
  split; [reflexivity |].
  exact (proj2 (synthesized_callables_raise_arity_error show limit unit
                  exec_all _ _ _ "post" _ Hin eq_refl)).
Defined.

(** [decorated_func] of the tests: [extra], passed in by the decorator and
    annotated with [str], is in [all] and [logic] and is not required. *)
Lemma parameter_set_run :
  well_formed decorated_func
  /\ get_params_from_func decorated_func
     = mkParams ["extra"; "name"; "is_alive"] ["name"] ["is_alive"]
         ["extra"; "name"; "is_alive"]
  /\ get_params_from_func no_params = mkParams [] [] [] []
  /\ (forall x,
        x ∈ required (get_params_from_func decorated_func) ->
        x ∉ optional (get_params_from_func decorated_func)).
Proof.
  assert (well_formed decorated_func) as Hwf.
  { intros sig [= <-]. simpl.
    repeat (apply NoDup_cons; split;
            [intros Hx; repeat (apply elem_of_cons in Hx as [Hx | Hx];
                                [discriminate |]);
             by apply not_elem_of_nil in Hx |]).
    apply NoDup_nil_2. }
  split; [exact Hwf |].
  split; [reflexivity |].
  split; [reflexivity |].
  exact (proj1 (proj2 (parameter_set_invariants decorated_func Hwf))).
Defined.

End RouteRuns.

(** * Further properties of the code *)

(** ** The coercion loop *)

Section CoercionFacts.
Import errors constants flask facts.

Lemma keys_setitem_present {A} (k : string) (v : A) (d : odict A) :
  k ∈ keys d -> keys (dict_setitem k v d) = keys d.
Proof.
  induction d as [| [k0 v0] d IH]; simpl; intros Hin.
  - by apply not_elem_of_nil in Hin.
  - destruct (String.eqb_spec k k0) as [-> | Hne]; simpl; [reflexivity |].
    apply elem_of_cons in Hin as [-> | Hin]; [congruence |].
    by rewrite IH.
Qed.

Lemma keys_setitem {A} (k : string) (v : A) (d : odict A) (x : string) :
  x ∈ keys (dict_setitem k v d) <-> x = k \/ x ∈ keys d.
Proof.
  induction d as [| [k0 v0] d IH]; simpl.
  - rewrite list_elem_of_singleton. split; [by left |].
    intros [-> | H]; [reflexivity | by apply not_elem_of_nil in H].
  - destruct (String.eqb_spec k k0) as [-> | Hne]; simpl.
    + rewrite !elem_of_cons. tauto.
    + rewrite !elem_of_cons, IH. tauto.
Qed.

Lemma keys_update {A} (d kw : odict A) (x : string) :
  x ∈ keys (dict_update d kw) -> x ∈ keys d \/ x ∈ keys kw.
Proof.
  unfold dict_update. revert d.
  induction kw as [| [k v] kw IH]; intros d; simpl; [by left |].
  intros Hx. destruct (IH _ Hx) as [Hd | Hkw].
  - apply keys_setitem in Hd as [-> | Hd]; [right; left | by left].
  - right. by right.
Qed.

Lemma keys_filter_params (all_params : list string) (d : dict) (x : string) :
  x ∈ keys (filter_params all_params d) -> x ∈ all_params.
Proof.
  unfold filter_params, keys. rewrite list_elem_of_In, in_map_iff.
  intros ([k v] & <- & Hin). apply filter_In in Hin as [_ Hk].
  by apply bool_decide_eq_true in Hk.
Qed.

Lemma setitem_in_place {A} (pre rest : odict A) (k : string) (v v' : A) :
  k ∉ keys pre ->
  dict_setitem k v' (pre ++ (k, v) :: rest) = pre ++ (k, v') :: rest.
Proof.
  induction pre as [| [k0 v0] pre IH]; simpl; intros Hnin.
  - by rewrite String.eqb_refl.
  - apply not_elem_of_cons in Hnin as [Hne Hnin].
    destruct (String.eqb_spec k k0); [congruence |].
    by rewrite IH.
Qed.

(** The loop, run on the entries that are left while the entries before
    them are done. *)
Lemma coerce_in_place (sig : Signature) (items pre out : dict) :
  NoDup (keys (pre ++ items)) ->
  coerce sig items (pre ++ items) = Ok out <->
  exists items',
    out = pre ++ items'
    /\ Forall2 (fun kv kv' => fst kv' = fst kv /\ coerces sig kv (snd kv'))
         items items'.
Proof.
  revert pre. induction items as [| [k v] items IH]; intros pre Hnd; simpl.
  - split.
    + intros [= <-]. exists []. split; [reflexivity | constructor].
    + intros (items' & -> & HF). by inversion HF.
  - assert (k ∉ keys pre) as Hk.
    { unfold keys in *. rewrite fmap_app in Hnd.
      apply NoDup_app in Hnd as (_ & Hdisj & _).
      intros Hin. apply (Hdisj _ Hin). simpl. left. }
    assert (NoDup (keys ((pre ++ [(k, v)]) ++ items))) as Hnd0.
    { by rewrite <- app_assoc. }
    split.
    + destruct (dict_get k (parameters sig)) as [p |] eqn:Hp; [| done].
      destruct (annotation p) as [a |] eqn:Ha; [| done].
      destruct (construct a v) as [v' |] eqn:Hv; [| done].
      rewrite setitem_in_place by exact Hk.
      change (pre ++ (k, v') :: items) with (pre ++ [(k, v')] ++ items).
      rewrite app_assoc. intros Hco.
      apply IH in Hco as (items' & -> & HF).
      * exists ((k, v') :: items'). split; [by rewrite <- app_assoc |].
        constructor; [| exact HF].
        split; [reflexivity |]. by exists p, a.
      * unfold keys in *. rewrite !fmap_app in *. exact Hnd0.
    + intros (items' & -> & HF).
      inversion HF as [| kv kv' l l' [Hfst (p & a & Hp & Ha & Hv)] HF'];
        subst.
      destruct kv' as [k' v']. simpl in *. subst k'.
      rewrite Hp, Ha, Hv, setitem_in_place by exact Hk.
      change (pre ++ (k, v') :: items) with (pre ++ [(k, v')] ++ items).
      rewrite app_assoc. apply IH.
      * unfold keys in *. rewrite !fmap_app in *. exact Hnd0.
      * exists l'. split; [by rewrite <- app_assoc | exact HF'].
Qed.

(** X1: the loop that coerces the parameters works in place.  On a mapping
    with distinct keys it succeeds exactly when every entry names a
    parameter of the signature whose annotation accepts the value, and the
    result then has the same keys in the same order, each value replaced by
    what its annotation made of it. *)
Theorem coercion_loop_in_place (sig : Signature) (params out : dict) :
  NoDup (keys params) ->
  coerce sig params params = Ok out <->
  Forall2 (fun kv kv' => fst kv' = fst kv /\ coerces sig kv (snd kv'))
    params out.
Proof.
  intros Hnd. rewrite (coerce_in_place sig params [] out Hnd). simpl.
  split.
  - by intros (items' & -> & HF).
  - intros HF. by exists out.
Qed.

(** The loop keeps the keys of the mapping, whatever the keys are. *)
Lemma coerce_keys (sig : Signature) (items acc out : dict) :
  (forall k, k ∈ keys items -> k ∈ keys acc) ->
  coerce sig items acc = Ok out -> keys out = keys acc.
Proof.
  revert acc. induction items as [| [k v] items IH]; intros acc Hsub; simpl.
  - by intros [= <-].
  - destruct (dict_get k (parameters sig)) as [p |]; [| done].
    destruct (annotation p) as [a |]; [| done].
    destruct (construct a v) as [v' |]; [| done].
    intros Hco. apply IH in Hco.
    + rewrite Hco. apply keys_setitem_present, Hsub. simpl. left.
    + intros k' Hk'. apply keys_setitem. right. apply Hsub. simpl.
      by right.
Qed.

(** A loop that succeeds has found every key in the signature. *)
Lemma coerce_declared (sig : Signature) (items acc out : dict) (k : string) :
  coerce sig items acc = Ok out -> k ∈ keys items ->
  is_Some (dict_get k (parameters sig)).
Proof.
  revert acc. induction items as [| [k0 v] items IH]; intros acc; simpl.
  - intros _ Hin. by apply not_elem_of_nil in Hin.
  - destruct (dict_get k0 (parameters sig)) as [p |] eqn:Hp; [| done].
    destruct (annotation p) as [a |]; [| done].
    destruct (construct a v) as [v' |]; [| done].
    intros Hco Hin. apply elem_of_cons in Hin as [-> | Hin].
    + by rewrite Hp.
    + by apply (IH _ Hco).
Qed.

(** The loop stops at the first entry whose annotation raises. *)
Lemma coerce_first_failure (sig : Signature) (done post acc : dict)
    (k : string) (v : value) (p : SigParameter) (a : Annotation)
    (e : pyexc) :
  Forall (fun kv => exists v', coerces sig kv v') done ->
  dict_get k (parameters sig) = Some p ->
  annotation p = Some a ->
  construct a v = Raise e ->
  coerce sig (done ++ (k, v) :: post) acc = Raise e.
Proof.
  intros Hdone Hp Ha Hv. revert acc.
  induction Hdone as [| [k0 v0] done (v' & p0 & a0 & Hp0 & Ha0 & Hv0) _ IH];
    intros acc; simpl in *.
  - by rewrite Hp, Ha, Hv.
  - rewrite Hp0, Ha0, Hv0. apply IH.
Qed.

Lemma dict_mem_keys {A} (k : string) (d : odict A) :
  dict_mem k d = true <-> k ∈ keys d.
Proof.
  unfold dict_mem. induction d as [| [k0 v0] d IH]; simpl.
  - split; [discriminate | intros H; by apply not_elem_of_nil in H].
  - destruct (String.eqb_spec k k0) as [-> | Hne].
    + split; [intros _; left | reflexivity].
    + rewrite IH, elem_of_cons. split; [by right | intros [? | ?]; by idtac].
Qed.

Lemma check_required_passes (required : list string) (params : dict) :
  check_required required params = Ok tt <->
  Forall (fun r => dict_mem r params = true) required.
Proof.
  induction required as [| r required IH]; simpl.
  - split; [constructor | reflexivity].
  - destruct (dict_mem r params) eqn:Hr.
    + rewrite IH. split; [by constructor | by inversion 1].
    + split; [discriminate |]. inversion 1; congruence.
Qed.

End CoercionFacts.

(** ** More on the dispatchers *)

Section DispatchMore.
Import errors constants flask spec facts.

Variable str : pyobj -> string.
Variable MAX_RESPONSE_LENGTH : nat.
Variable validator : Type.
Variable exec_params : logic_fn -> list value -> dict -> outcome pyobj.

Local Abbreviation handle_http_v3 := (handle_http_v3 str MAX_RESPONSE_LENGTH).
Local Abbreviation body_v3 := (body_v3 str MAX_RESPONSE_LENGTH).
Local Abbreviation handle_http :=
  (handle_http str MAX_RESPONSE_LENGTH validator exec_params).
Local Abbreviation body_http :=
  (body_http str MAX_RESPONSE_LENGTH validator exec_params).
Local Abbreviation warning_v3 := (warning_v3 str MAX_RESPONSE_LENGTH).
Local Abbreviation warning_http := (warning_http str MAX_RESPONSE_LENGTH).

Lemma merged_v3_keys g kwargs lg (k : string) :
  k ∈ keys (merged_v3 g kwargs lg) ->
  k ∈ all (_doctor_params lg) \/ k ∈ keys kwargs.
Proof.
  unfold merged_v3. intros Hk.
  apply keys_update in Hk as [Hk | Hk]; [left | by right].
  by apply keys_filter_params in Hk.
Qed.

(** X2: in type-annotation mode a field of the request that is not one of
    the [all] names of the logic function never reaches it: every keyword
    the logic function is called with is one of its [all] names or a keyword
    argument of the router. *)
Theorem only_known_names_reach_logic g handler args kwargs lg
    allowed_exceptions st c :
  calls (snd (handle_http_v3 g handler args kwargs lg allowed_exceptions st))
    = calls st ++ [c] ->
  forall k, k ∈ keys (call_kwargs c) ->
            k ∈ all (_doctor_params lg) \/ k ∈ keys kwargs.
Proof.
  rewrite handle_http_v3_calls. cbv zeta.
  destruct (check_required _ _) as [[] |].
  - destruct (coerce _ _ _) as [params |] eqn:Hco.
    + intros H k Hk. apply app_inv_head in H. injection H as <-. simpl in Hk.
      rewrite (coerce_keys _ _ _ _ (fun _ H => H) Hco) in Hk.
      exact (merged_v3_keys g kwargs lg k Hk).
    + intros H. rewrite <- (app_nil_r (calls st)) in H at 1.
      apply app_inv_head in H. discriminate.
  - intros H. rewrite <- (app_nil_r (calls st)) in H at 1.
    apply app_inv_head in H. discriminate.
Qed.

(** X20: in type-annotation mode the logic function is only called with
    all its required names: every name of the required set is among the
    keywords of the call. *)
Theorem required_names_reach_logic g handler args kwargs lg
    allowed_exceptions st c :
  calls (snd (handle_http_v3 g handler args kwargs lg allowed_exceptions st))
    = calls st ++ [c] ->
  forall r, r ∈ required (_doctor_params lg) -> r ∈ keys (call_kwargs c).
Proof.
  rewrite handle_http_v3_calls. cbv zeta.
  destruct (check_required _ _) as [[] |] eqn:Hreq.
  - destruct (coerce _ _ _) as [params |] eqn:Hco.
    + intros H r Hr. apply app_inv_head in H. injection H as <-. simpl.
      rewrite (coerce_keys _ _ _ _ (fun _ H => H) Hco).
      apply check_required_passes in Hreq.
      rewrite Forall_forall in Hreq. by apply dict_mem_keys, Hreq.
    + intros H. rewrite <- (app_nil_r (calls st)) in H at 1.
      apply app_inv_head in H. discriminate.
  - intros H. rewrite <- (app_nil_r (calls st)) in H at 1.
    apply app_inv_head in H. discriminate.
Qed.

(** X3: when the required names are all there and the merged mapping is
    coerced entry by entry, the first entry whose annotation raises decides
    the outcome; if what it raises is a type-system error, the dispatch
    answers with the 400 built from it, and the state is left as it was:
    the logic function is not called. *)
Theorem coercion_failure_is_bad_request g handler args kwargs lg
    allowed_exceptions st done k v post p a e :
  check_required (required (_doctor_params lg)) (merged_v3 g kwargs lg)
    = Ok tt ->
  merged_v3 g kwargs lg = done ++ (k, v) :: post ->
  Forall (fun kv => exists v', coerces (_doctor_signature lg) kv v') done ->
  dict_get k (parameters (_doctor_signature lg)) = Some p ->
  annotation p = Some a ->
  construct a v = Raise e ->
  isinstance e TypeSystemError = true ->
  handle_http_v3 g handler args kwargs lg allowed_exceptions st
    = (Raise (HTTP400Exception (inl e) (getattr_errors e)), st).
Proof.
  intros Hreq Hmerged Hdone Hp Ha Hv Hts.
  unfold flask.handle_http_v3, try_except.
  rewrite body_v3_cases. cbv zeta. rewrite Hreq.
  rewrite Hmerged at 1.
  rewrite (coerce_first_failure _ done post _ k v p a e Hdone Hp Ha Hv).
  by rewrite Hts, orb_true_r.
Qed.

(** X4: a key of the merged mapping that the signature of the logic
    function does not declare, such as a keyword argument of the router
    that the function does not take, makes the dispatch raise without
    calling the logic function. *)
Theorem undeclared_keyword_fails_before_logic g handler args kwargs lg
    allowed_exceptions st k :
  k ∈ keys (merged_v3 g kwargs lg) ->
  dict_get k (parameters (_doctor_signature lg)) = None ->
  exists e st',
    handle_http_v3 g handler args kwargs lg allowed_exceptions st
      = (Raise e, st')
    /\ calls st' = calls st.
Proof.
  intros Hk Hnone.
  assert (exists e, body_v3 g args kwargs lg st = (Raise e, st)) as [e He].
  { rewrite body_v3_cases. cbv zeta.
    destruct (check_required _ _) as [[] | e]; [| by exists e].
    destruct (coerce _ _ _) as [out | e] eqn:Hco; [| by exists e].
    destruct (coerce_declared _ _ _ _ k Hco Hk) as [p Hp]. congruence. }
  unfold flask.handle_http_v3, try_except. rewrite He.
  unfold raise, bind, emit.
  except_clauses; simpl; eexists _, _; split; reflexivity.
Qed.

(** X5: in type-annotation mode, a returned value that the return
    annotation rejects with a type-system error is always logged, after the
    logic function has been called; under the raise policy the caller then
    gets the 400 built from the type-system error, and otherwise the usual
    reply. *)
Theorem response_validation_failure_v3 g handler args kwargs lg
    allowed_exceptions st params response ann e :
  check_required (required (_doctor_params lg)) (merged_v3 g kwargs lg)
    = Ok tt ->
  coerce (_doctor_signature lg) (merged_v3 g kwargs lg)
    (merged_v3 g kwargs lg) = Ok params ->
  __call__ lg args params = Ok response ->
  utils.return_annotation (_doctor_signature lg) = Some ann ->
  construct ann (unwrap response) = Raise e ->
  isinstance e TypeSystemError = true ->
  handle_http_v3 g handler args kwargs lg allowed_exceptions st
    = (if should_raise_response_validation_errors g
       then Raise (HTTP400Exception (inl e) (getattr_errors e))
       else Ok (shape (request g) response),
       logged (warning_v3 g response e)
         (called (Call (__name__ lg) args params) st)).
Proof.
  intros Hreq Hco Hcall Hann Hval Hts.
  unfold flask.handle_http_v3, try_except.
  rewrite body_v3_cases. cbv zeta.
  rewrite Hreq, Hco, Hcall, validate_response_v3_cases, Hann, Hval, Hts.
  destruct (should_raise_response_validation_errors g); [| reflexivity].
  by rewrite Hts, orb_true_r.
Qed.

(** X6: the same in schema mode: a response that the response validator
    rejects with a schema-validation error is logged after the call; when
    the resource schema asks for it the caller gets the 400 built from the
    error, and otherwise the usual reply. *)
Theorem response_validation_failure_http g schema handler args kwargs lg
    request_schema request_validator rv allowed_exceptions st kw response e :
  kwargs_http validator g schema kwargs request_schema request_validator
    = Ok kw ->
  exec_params lg args kw = Ok response ->
  validate validator schema (unwrap response) rv = Raise e ->
  isinstance e SchemaValidationError = true ->
  handle_http g schema handler args kwargs lg request_schema
    request_validator (Some rv) allowed_exceptions st
    = (if raise_response_validation_errors validator schema
       then Raise (HTTP400Exception (inl e) (getattr_errors e))
       else Ok (shape (request g) response),
       logged (warning_http g response e)
         (called (Call (__name__ lg) args kw) st)).
Proof.
  intros Hkw Hcall Hval Hsv.
  unfold flask.handle_http, try_except.
  rewrite body_http_cases, Hkw. cbv zeta.
  rewrite Hcall, validate_response_cases, Hval, Hsv.
  destruct (raise_response_validation_errors validator schema);
    [| reflexivity].
  by rewrite Hsv, !orb_true_r.
Qed.

(** An exception of [doctor/flask.py] is none of the named error kinds. *)
Lemma schematic_is_other (c : http_class) (d : pyexc + string)
    (o : option value) :
  let e := SchematicHTTP c d o in
  isinstance e InvalidValueError = false
  /\ isinstance e TypeSystemError = false
  /\ isinstance e ParseError = false
  /\ isinstance e SchemaValidationError = false
  /\ isinstance e UnauthorizedError = false
  /\ isinstance e ForbiddenError = false
  /\ isinstance e NotFoundError = false
  /\ isinstance e ImmutableError = false
  /\ isinstance e Exception = true.
Proof. destruct c; repeat split; reflexivity. Qed.

(** X7: with debug off and no allowed match, an HTTP exception that the
    logic function raises itself, whatever its status, does not pass
    through: it is logged and the caller gets the 500 with the fixed
    message.  This holds for both dispatchers. *)
Theorem http_exception_of_logic_becomes_500 :
  (forall g handler args kwargs lg allowed_exceptions st c d o st',
      body_v3 g args kwargs lg st = (Raise (SchematicHTTP c d o), st') ->
      debug g = false ->
      allowed (SchematicHTTP c d o) allowed_exceptions = false ->
      handle_http_v3 g handler args kwargs lg allowed_exceptions st
        = (Raise (HTTP500Exception (inr "Uncaught error in logic function")),
           logged (LogException (SchematicHTTP c d o)) st'))
  /\ (forall g schema handler args kwargs lg request_schema
        request_validator response_validator allowed_exceptions st c d o st',
        body_http g schema args kwargs lg request_schema request_validator
          response_validator st = (Raise (SchematicHTTP c d o), st') ->
        debug g = false ->
        allowed (SchematicHTTP c d o) allowed_exceptions = false ->
        handle_http g schema handler args kwargs lg request_schema
          request_validator response_validator allowed_exceptions st
          = (Raise (HTTP500Exception
                      (inr "Uncaught error in logic function")),
             logged (LogException (SchematicHTTP c d o)) st')).
Proof.
  split; intros * Hbody Hdebug Hallowed;
    destruct (schematic_is_other c d o)
      as (H1 & H2 & H3 & H4 & H5 & H6 & H7 & H8 & H9); cbv zeta in *.
  - unfold flask.handle_http_v3, try_except.
    by rewrite Hbody, H1, H2, H5, H6, H7, H8, H9, Hdebug, Hallowed.
  - unfold flask.handle_http, try_except.
    by rewrite Hbody, H1, H3, H4, H5, H6, H7, H8, H9, Hdebug, Hallowed.
Qed.

(** X8: with debug off and an allow-list that is absent or empty, no
    exception that derives from [Exception] leaves a dispatcher unless it is
    one of the six exceptions of [doctor/flask.py]. *)
Theorem only_http_exceptions_leave :
  (forall g handler args kwargs lg allowed_exceptions st e st',
      debug g = false ->
      allowed_exceptions = None \/ allowed_exceptions = Some [] ->
      handle_http_v3 g handler args kwargs lg allowed_exceptions st
        = (Raise e, st') ->
      (exists c d o, e = SchematicHTTP c d o)
      \/ isinstance e Exception = false)
  /\ (forall g schema handler args kwargs lg request_schema
        request_validator response_validator allowed_exceptions st e st',
        debug g = false ->
        allowed_exceptions = None \/ allowed_exceptions = Some [] ->
        handle_http g schema handler args kwargs lg request_schema
          request_validator response_validator allowed_exceptions st
          = (Raise e, st') ->
        (exists c d o, e = SchematicHTTP c d o)
        \/ isinstance e Exception = false).
Proof.
  split; intros * Hdebug Hallowed.
  - unfold flask.handle_http_v3, try_except.
    destruct (body_v3 g args kwargs lg st) as [[r | e0] st0]; [done |].
    assert (allowed e0 allowed_exceptions = false) as ->.
    { by destruct Hallowed as [-> | ->]. }
    rewrite Hdebug. unfold raise, bind, emit.
    destruct (isinstance e0 Exception) eqn:Hexc; except_clauses;
      intros [= <- <-]; first [ left; by eexists _, _, _ | by right ].
  - unfold flask.handle_http, try_except.
    destruct (body_http _ _ _ _ _ _ _ _ _) as [[r | e0] st0]; [done |].
    assert (allowed e0 allowed_exceptions = false) as ->.
    { by destruct Hallowed as [-> | ->]. }
    rewrite Hdebug. unfold raise, bind, emit.
    destruct (isinstance e0 Exception) eqn:Hexc; except_clauses;
      intros [= <- <-]; first [ left; by eexists _, _, _ | by right ].
Qed.

(** X9: a dispatch is a single attempt.  It calls the logic function at
    most once and adds at most two records to the log; it logs a warning
    only when it has called the logic function; and when it returns it has
    called the logic function exactly once and has logged no exception.
    This holds for both dispatchers. *)
Theorem dispatch_is_a_single_attempt :
  (forall g handler args kwargs lg allowed_exceptions st,
      let out :=
        handle_http_v3 g handler args kwargs lg allowed_exceptions st in
      exists cs new, adds st out cs new /\ single_attempt out cs new)
  /\ (forall g schema handler args kwargs lg request_schema
        request_validator response_validator allowed_exceptions st,
        let out :=
          handle_http g schema handler args kwargs lg request_schema
            request_validator response_validator allowed_exceptions st in
        exists cs new, adds st out cs new /\ single_attempt out cs new).
Proof.
  split.
  - intros. subst out.
    unfold flask.handle_http_v3, try_except.
    rewrite body_v3_cases. cbv zeta.
    destruct (check_required _ _) as [[] | e0];
      [destruct (coerce _ _ _) as [params | e0];
       [destruct (__call__ lg args params) as [response | e0];
        [rewrite validate_response_v3_cases;
         destruct (utils.return_annotation (_doctor_signature lg))
           as [ann |];
         [destruct (construct ann (unwrap response)) as [v | e0];
          [| destruct (isinstance e0 TypeSystemError) eqn:Hts;
             [destruct (should_raise_response_validation_errors g) |]] |]
        |] |] |];
      unfold raise, bind, emit, logged, called; except_clauses; simpl;
      account.
  - intros. subst out.
    unfold flask.handle_http, try_except.
    rewrite body_http_cases.
    destruct (kwargs_http _ _ _ _ _ _) as [kw | e0];
      [cbv zeta;
       destruct (exec_params lg args kw) as [response | e0];
       [rewrite validate_response_cases;
        destruct response_validator as [rv |];
        [destruct (validate validator schema (unwrap response) rv)
           as [v | e0];
         [| destruct (isinstance e0 SchemaValidationError) eqn:Hsv;
            [destruct (raise_response_validation_errors validator schema)
            |]] |]
       |] |];
      unfold raise, bind, emit, logged, called; except_clauses; simpl;
      account.
Qed.

End DispatchMore.

(** ** More on route synthesis *)

Section RoutingMore.
Import flask routing.

Variable str : pyobj -> string.
Variable MAX_RESPONSE_LENGTH : nat.
Variable validator : Type.
Variable exec_params : logic_fn -> list value -> dict -> outcome pyobj.

Local Abbreviation create_http_method :=
  (create_http_method str MAX_RESPONSE_LENGTH validator exec_params).
Local Abbreviation add_method :=
  (add_method str MAX_RESPONSE_LENGTH validator exec_params).
Local Abbreviation create_routes :=
  (create_routes str MAX_RESPONSE_LENGTH validator exec_params).
Local Abbreviation callable_of m :=
  (AFunc (create_http_method (logic m) (verb_name (method m)))).
Local Abbreviation attach ms ns0 :=
  (fold_left
     (fun ns m => dict_setitem (verb_name (method m)) (callable_of m) ns)
     ms ns0).

Lemma verb_name_inj (v w : verb) : verb_name v = verb_name w -> v = w.
Proof. by destruct v, w. Qed.

(** The namespace of the handler type of a route with a first binding. *)
Lemma namespace_of_route (r : Route) (m : HTTPMethod) (ms : list HTTPMethod)
    (h : handler_type) :
  methods r = m :: ms ->
  fold_left (add_method r) (methods r) None = Some h ->
  type_name h = or_else (handler_name r) (__name__ (logic m))
  /\ namespace h
     = attach ms
         [("__name__", AStr (Some (type_name h)));
          ("_doctor_heading", AStr (heading r));
          (verb_name (method m), callable_of m)].
Proof.
  intros Hms. rewrite Hms. cbn [fold_left]. rewrite add_method_first.
  set (h0 := new_type _ _ _).
  destruct (add_methods_later str MAX_RESPONSE_LENGTH validator exec_params
              r ms h0) as (h' & Hfold & Hname & _ & _ & Hns).
  rewrite Hfold. intros [= <-]. rewrite Hname, Hns. by subst h0.
Qed.

Lemma route_handler (routes : list Route) (i : nat) (r : Route)
    (h : handler_type) :
  routes !! i = Some r ->
  create_routes routes !! i = Some (route r, Some h) ->
  fold_left (add_method r) (methods r) None = Some h.
Proof.
  intros Hr. unfold routing.create_routes.
  rewrite map_lookup, Hr. simpl. by intros [= ->].
Qed.

(** X10: when a route declares a verb more than once, the handler type
    answers that verb with the callable of the last binding that declares
    it: a later binding replaces the callable of an earlier one. *)
Theorem last_binding_of_a_verb_wins (routes : list Route) (i : nat)
    (r : Route) (h : handler_type) (earlier later : list HTTPMethod)
    (m : HTTPMethod) :
  routes !! i = Some r ->
  create_routes routes !! i = Some (route r, Some h) ->
  methods r = earlier ++ m :: later ->
  (forall m', m' ∈ later -> method m' <> method m) ->
  dict_get (verb_name (method m)) (namespace h)
  = Some (AFunc (create_http_method (logic m) (verb_name (method m)))).
Proof.
  intros Hr Hh Hms Hlast.
  pose proof (route_handler routes i r h Hr Hh) as Hfold.
  assert (forall ns0,
             dict_get (verb_name (method m))
               (attach later
                  (dict_setitem (verb_name (method m)) (callable_of m) ns0))
             = Some (callable_of m)) as Hlater.
  { intros ns0.
    destruct (namespace_lookup str MAX_RESPONSE_LENGTH validator exec_params
                later
                (dict_setitem (verb_name (method m)) (callable_of m) ns0)
                (verb_name (method m)))
      as [(m' & Hin & Hk & _) | [_ Hget]]; cbv zeta in *.
    - apply verb_name_inj in Hk. by destruct (Hlast m' Hin).
    - by rewrite Hget, dict_get_setitem, String.eqb_refl. }
  destruct earlier as [| m0 earlier]; simpl in Hms.
  - destruct (namespace_of_route r m later h Hms Hfold) as [_ ->].
    rewrite <- (first_namespace str MAX_RESPONSE_LENGTH validator exec_params
                  (type_name h) (heading r) m).
    apply Hlater.
  - destruct (namespace_of_route r m0 (earlier ++ m :: later) h Hms Hfold)
      as [_ ->].
    rewrite fold_left_app. cbn [fold_left]. apply Hlater.
Qed.

(** X11: besides its verb callables, a handler type holds its own name
    under [__name__] and the heading of the route under [_doctor_heading],
    and nothing else: no later binding changes these two entries. *)
Theorem handler_namespace_contents (routes : list Route) (i : nat)
    (r : Route) (h : handler_type) :
  routes !! i = Some r ->
  create_routes routes !! i = Some (route r, Some h) ->
  dict_get "__name__" (namespace h) = Some (AStr (Some (type_name h)))
  /\ dict_get "_doctor_heading" (namespace h) = Some (AStr (heading r))
  /\ forall k a,
      dict_get k (namespace h) = Some a ->
      k = "__name__" \/ k = "_doctor_heading"
      \/ exists m, m ∈ methods r /\ k = verb_name (method m)
                   /\ a = AFunc (create_http_method (logic m)
                                   (verb_name (method m))).
Proof.
  intros Hr Hh.
  pose proof (route_handler routes i r h Hr Hh) as Hfold.
  destruct (methods r) as [| m ms] eqn:Hms; [discriminate |].
  destruct (namespace_of_route r m ms h Hms) as [_ Hns].
  { by rewrite Hms. }
  rewrite Hns.
  set (ns0 := [("__name__", AStr (Some (type_name h)));
               ("_doctor_heading", AStr (heading r));
               (verb_name (method m), callable_of m)]).
  assert (forall k,
             (forall v : verb, verb_name v <> k) ->
             dict_get k (attach ms ns0) = dict_get k ns0) as Hkeep.
  { intros k Hk.
    destruct (namespace_lookup str MAX_RESPONSE_LENGTH validator exec_params
                ms ns0 k) as [(m' & _ & Hm' & _) | [_ Hget]];
      cbv zeta in *; [by destruct (Hk (method m')) | exact Hget]. }
  split; [rewrite Hkeep; [reflexivity | by intros []] |].
  split; [rewrite Hkeep; [reflexivity | by intros []] |].
  intros k a Hget.
  destruct (namespace_lookup str MAX_RESPONSE_LENGTH validator exec_params
              ms ns0 k) as [(m' & Hin & Hm' & Hget') | [_ Hget']];
    cbv zeta in *; rewrite Hget' in Hget.
  - right. right. exists m'. injection Hget as <-.
    split; [by apply list_elem_of_further | done].
  - subst ns0. simpl in Hget.
    destruct (String.eqb_spec k "__name__"); [by left |].
    destruct (String.eqb_spec k "_doctor_heading"); [right; by left |].
    destruct (String.eqb_spec k (verb_name (method m))); [| discriminate].
    right. right. exists m. injection Hget as <-.
    split; [apply list_elem_of_here | done].
Qed.

End RoutingMore.

(** ** Binding a function to a verb *)

Section BindingFacts.
Import binding.

Variable get_params_from_func : fobject -> Params.

Local Abbreviation HTTPMethod_init := (HTTPMethod_init get_params_from_func).
Local Abbreviation bind_attributes := (bind_attributes get_params_from_func).

(** The function after the first statement of [__init__]: with its
    signature attribute. *)
Local Abbreviation with_signature f :=
  (match f_doctor_signature f with
   | Some _ => f
   | None => set_signature (f_inspect f) f
   end).

Lemma bind_attributes_view (a : option (list pyclass)) (t : option string)
    (f : fobject) :
  as_logic_fn (bind_attributes a t f)
  = Some (mkLogic (f_name f)
            (default (get_params_from_func (with_signature f))
               (f_doctor_params f))
            (default (f_inspect f) (f_doctor_signature f))
            a t (f_call f)).
Proof.
  unfold binding.bind_attributes, as_logic_fn.
  destruct f as [n i c [sig |] [p |] al ti]; reflexivity.
Qed.

Lemma bind_attributes_twice (a1 a2 : option (list pyclass))
    (t1 t2 : option string) (f : fobject) :
  bind_attributes a2 t2 (bind_attributes a1 t1 f) = bind_attributes a2 t2 f.
Proof.
  unfold binding.bind_attributes.
  destruct f as [n i c [sig |] [p |] al ti]; reflexivity.
Qed.

(** X12: once a function is bound to a verb, the dispatchers find its four
    attributes: the allowed exceptions and the title are those of the
    binding, a signature or a parameter set that the function already
    carried is kept, and one that is missing is computed, the parameter set
    from the function with its signature attribute in place.  The name and
    the code of the function, and every other function, are untouched. *)
Theorem bound_function_has_its_attributes (verb : string) (r : nat)
    (a : option (list pyclass)) (t : option string) (h : store) :
  let m := fst (HTTPMethod_init verb r a t h) in
  let h' := snd (HTTPMethod_init verb r a t h) in
  method m = verb /\ logic m = r
  /\ as_logic_fn (h' r)
     = Some (mkLogic (f_name (h r))
               (default (get_params_from_func (with_signature (h r)))
                  (f_doctor_params (h r)))
               (default (f_inspect (h r)) (f_doctor_signature (h r)))
               a t (f_call (h r)))
  /\ forall r', r' <> r -> h' r' = h r'.
Proof.
  simpl. split; [reflexivity |]. split; [reflexivity |].
  split.
  - rewrite fn_lookup_insert. apply bind_attributes_view.
  - intros r' Hne. by rewrite fn_lookup_insert_ne.
Qed.

(** X13: a function bound to two verbs is one object.  The second binding
    keeps the signature and the parameter set that the first one left, so
    they are computed once; it replaces the allowed exceptions and the
    title, and the first binding sees the replacement, since both refer to
    the same function. *)
Theorem rebinding_shares_the_function (v1 v2 : string) (r : nat)
    (a1 a2 : option (list pyclass)) (t1 t2 : option string) (h : store) :
  let m1 := fst (HTTPMethod_init v1 r a1 t1 h) in
  let h1 := snd (HTTPMethod_init v1 r a1 t1 h) in
  let m2 := fst (HTTPMethod_init v2 r a2 t2 h1) in
  let h2 := snd (HTTPMethod_init v2 r a2 t2 h1) in
  exists lg1 lg2,
    as_logic_fn (h1 (logic m1)) = Some lg1
    /\ as_logic_fn (h2 (logic m2)) = Some lg2
    /\ as_logic_fn (h2 (logic m1)) = Some lg2
    /\ _doctor_signature lg2 = _doctor_signature lg1
    /\ _doctor_params lg2 = _doctor_params lg1
    /\ _doctor_allowed_exceptions lg2 = a2
    /\ _doctor_title lg2 = t2
    /\ _doctor_allowed_exceptions lg1 = a1
    /\ forall r', r' <> r -> h2 r' = h r'.
Proof.
  simpl. rewrite !fn_lookup_insert, bind_attributes_twice.
  rewrite !bind_attributes_view.
  eexists _, _. repeat split; try reflexivity.
  intros r' Hne. by rewrite !fn_lookup_insert_ne.
Qed.

End BindingFacts.

(** ** doctor/resource.py *)

Section ResourceFacts.
Import errors constants flask resource.

Lemma upper_ascii_idempotent (c : ascii) :
  upper_ascii (upper_ascii c) = upper_ascii c.
Proof.
  destruct c as [[] [] [] [] [] [] [] []]; reflexivity.
Qed.

Lemma upper_idempotent (s : string) : upper (upper s) = upper s.
Proof.
  induction s as [| c s IH]; simpl; [reflexivity |].
  by rewrite upper_ascii_idempotent, IH.
Qed.

(** X14: the two annotation classes title a method in the same way, and
    only its upper-cased name counts: methods that differ in letter case
    give the same [ResourceAnnotation], annotating again with the stored
    method changes nothing, and each of the four verbs of [routing.py] gets
    a default title. *)
Theorem annotation_titles :
  (forall (L S : Type) (l : L) (sch : S) lg m rs ps t,
      sa_title (ResourceSchemaAnnotation_init l m sch rs ps t)
      = title (ResourceAnnotation_init lg m t))
  /\ (forall lg m1 m2 t,
        upper m1 = upper m2 ->
        ResourceAnnotation_init lg m1 t = ResourceAnnotation_init lg m2 t)
  /\ (forall lg m t,
        ResourceAnnotation_init lg
          (http_method (ResourceAnnotation_init lg m t)) t
        = ResourceAnnotation_init lg m t)
  /\ (forall lg (v : routing.verb),
        http_method (ResourceAnnotation_init lg (routing.verb_name v) None)
        = upper (routing.verb_name v)
        /\ title (ResourceAnnotation_init lg (routing.verb_name v) None)
           = Some (match v with
                   | routing.Get => "Retrieve"
                   | routing.Post => "Create"
                   | routing.Put => "Update"
                   | routing.Delete => "Delete"
                   end)).
Proof.
  split; [reflexivity |].
  split.
  { intros lg m1 m2 t Hm. unfold ResourceAnnotation_init. by rewrite Hm. }
  split.
  { intros lg m t. unfold ResourceAnnotation_init. simpl.
    by rewrite upper_idempotent. }
  intros lg []; split; reflexivity.
Qed.

(** *** [get_annotation] *)



(** X16: [get_annotation] has no bound on its loop.  On objects without
    annotation whose closures lead back to one another, such as a nested
    function whose closure holds the function itself, the loop is not over
    after any number of turns. *)
Theorem get_annotation_loops_on_a_cycle {A} (h : nat -> pyobject A)
    (on_cycle : nat -> Prop) :
  (forall r, on_cycle r ->
             _schema_annotation (h r) = None
             /\ exists r', next h r = Ok (Some r') /\ on_cycle r') ->
  forall r, on_cycle r ->
    forall fuel, get_annotation h fuel (Some r) = None.
Proof.
  intros Hcycle r Hr fuel. revert r Hr.
  induction fuel as [| fuel IH]; intros r Hr; [reflexivity |].
  destruct (Hcycle r Hr) as (Hann & r' & Hnext & Hr').
  simpl. rewrite Hann, Hnext. by apply IH.
Qed.

(** *** [_create_request_schema] *)

Lemma request_properties_lookup (params : list string) (acc : dict)
    (p : string) :
  dict_get p
    (fold_left
       (fun properties param =>
          dict_setitem param
            (VDict [("$ref", VStr ("#/definitions/" +:+ param))]) properties)
       params acc)
  = if bool_decide (p ∈ params)
    then Some (VDict [("$ref", VStr ("#/definitions/" +:+ p))])
    else dict_get p acc.
Proof.
  revert acc. induction params as [| q params IH]; intros acc; simpl.
  - reflexivity.
  - rewrite IH, dict_get_setitem.
    destruct (bool_decide (p ∈ params)) eqn:Hin.
    + apply bool_decide_eq_true in Hin.
      rewrite bool_decide_eq_true_2; [reflexivity | by right].
    + apply bool_decide_eq_false in Hin.
      destruct (String.eqb_spec p q) as [-> | Hne].
      * rewrite bool_decide_eq_true_2; [reflexivity | by left].
      * rewrite bool_decide_eq_false_2; [reflexivity |].
        intros Hpq. apply elem_of_cons in Hpq as [? | ?]; congruence.
Qed.

(** X17: the request schema that [_create_request_schema] builds allows
    additional properties, has exactly one property per name of [params],
    each a reference to the definition of that name, and requires the names
    of [required], or none when [required] is [None] or empty. *)
Theorem request_schema_contents (defs : value) (params : list string)
    (required : option (list string)) :
  exists d props,
    _create_request_schema (Ok defs) params required = Ok (VDict d)
    /\ dict_get "additionalProperties" d = Some (VBool true)
    /\ dict_get "definitions" d = Some defs
    /\ dict_get "type" d = Some (VStr "object")
    /\ dict_get "required" d
       = Some (VList (map VStr (match required with
                                | Some l => l
                                | None => []
                                end)))
    /\ dict_get "properties" d = Some (VDict props)
    /\ forall p,
        dict_get p props
        = if bool_decide (p ∈ params)
          then Some (VDict [("$ref", VStr ("#/definitions/" +:+ p))])
          else None.
Proof.
  eexists _, _.
  split; [reflexivity |].
  split; [reflexivity |].
  split; [reflexivity |].
  split; [reflexivity |].
  split; [by destruct required |].
  split; [reflexivity |].
  intros p. apply (request_properties_lookup params [] p).
Qed.

End ResourceFacts.

(** ** More on schema mode *)

Section SchemaModeMore.
Import errors constants flask resource.

Variable str : pyobj -> string.
Variable MAX_RESPONSE_LENGTH : nat.
Variable validator : Type.
Variable exec_params : logic_fn -> list value -> dict -> outcome pyobj.

Local Abbreviation handle_http :=
  (handle_http str MAX_RESPONSE_LENGTH validator exec_params).
Local Abbreviation body_http :=
  (body_http str MAX_RESPONSE_LENGTH validator exec_params).

(** X18: a request schema made by [_create_request_schema] is never
    falsy, also when it lists no parameter, so a binding that has one
    always reads the request: the whole JSON body of a JSON request, or what
    the parser makes of the query and form values, is passed on with the
    keyword arguments of the router merged in, and nothing is filtered
    out. *)
Theorem created_schema_reads_the_request g schema handler args kwargs lg
    defs params required rs response_validator allowed_exceptions st :
  _create_request_schema defs params required = Ok rs ->
  let out :=
    handle_http g schema handler args kwargs lg rs None response_validator
      allowed_exceptions st in
  truthy rs = true
  /\ (json_request (request g) = true ->
      calls (snd out)
      = calls st
        ++ [Call (__name__ lg) args (dict_update (json (request g)) kwargs)])
  /\ (json_request (request g) = false ->
      calls (snd out)
      = match _parse_params validator schema (values (request g)) rs with
        | Ok d => calls st ++ [Call (__name__ lg) args (dict_update d kwargs)]
        | Raise _ => calls st
        end).
Proof.
  intros Hrs out. subst out.
  assert (truthy rs = true) as Htruthy.
  { unfold _create_request_schema in Hrs.
    destruct defs; [| discriminate]. by injection Hrs as <-. }
  split; [exact Htruthy |].
  rewrite handle_http_calls. unfold kwargs_http. rewrite Htruthy.
  split; intros ->; [reflexivity |].
  by destruct (_parse_params validator schema _ _).
Qed.

(** X19: in schema mode a request that is refused before the call is
    answered with a 400 and the logic function is not called: this is so
    for a parse error raised while the query and form values are parsed,
    and for a schema-validation error raised by the request validator. *)
Theorem refused_request_is_bad_request g schema handler args kwargs lg
    request_schema request_validator response_validator allowed_exceptions
    st e :
  truthy request_schema = true ->
  (json_request (request g) = false ->
   _parse_params validator schema (values (request g)) request_schema
     = Raise e ->
   isinstance e ParseError = true ->
   handle_http g schema handler args kwargs lg request_schema
     request_validator response_validator allowed_exceptions st
   = (Raise (HTTP400Exception (inl e) (getattr_errors e)), st))
  /\ (forall d rv,
        (if json_request (request g) then Ok (json (request g))
         else _parse_params validator schema (values (request g))
                request_schema) = Ok d ->
        request_validator = Some rv ->
        validate validator schema (VDict (dict_update d kwargs)) rv
          = Raise e ->
        isinstance e SchemaValidationError = true ->
        handle_http g schema handler args kwargs lg request_schema
          request_validator response_validator allowed_exceptions st
        = (Raise (HTTP400Exception (inl e) (getattr_errors e)), st)).
Proof.
  intros Htruthy. split.
  - intros Hjson Hparse He.
    unfold flask.handle_http, try_except.
    rewrite body_http_cases. unfold kwargs_http.
    rewrite Htruthy, Hjson, Hparse.
    by rewrite He, orb_true_r.
  - intros d rv Hd -> Hval He.
    unfold flask.handle_http, try_except.
    rewrite body_http_cases. unfold kwargs_http.
    rewrite Htruthy, Hd. cbv zeta. rewrite Hval.
    by rewrite He, !orb_true_r.
Qed.

End SchemaModeMore.

(** ** More runs *)

Section MoreRuns.
Import errors constants flask spec facts samples more_samples.

Local Abbreviation handle_http_v3 := (handle_http_v3 show limit).
Local Abbreviation body_v3 := (body_v3 show limit).
Local Abbreviation handle_http := (handle_http show limit unit exec_all).
Local Abbreviation body_http := (body_http show limit unit exec_all).

(** The parameters of a request for [get_foo], coerced. *)
Lemma coercion_loop_run :
  let params := [("name", VStr "a"); ("is_alive", VStr "false")] in
  let out := [("name", VStr "a"); ("is_alive", VBool false)] in
  NoDup (keys params)
  /\ coerce (_doctor_signature get_foo) params params = Ok out
  /\ Forall2 (fun kv kv' =>
                fst kv' = fst kv
                /\ coerces (_doctor_signature get_foo) kv (snd kv'))
       params out.
Proof.
  assert (NoDup (keys [("name", VStr "a"); ("is_alive", VStr "false")]))
    as Hnd.
  { repeat (apply NoDup_cons; split;
            [intros Hx; no_such_record Hx |]).
    apply NoDup_nil_2. }
  split; [exact Hnd |].
  split; [reflexivity |].
  by apply (coercion_loop_in_place (_doctor_signature get_foo) _ _ Hnd).
Defined.

(** A PUT for [update_foo] with a field that the function does not take. *)
Lemma only_known_names_run :
  let g := globals_of (request_of "application/json" "PUT"
                         [("name", VStr "a"); ("color", VStr "red")] []) in
  let c := Call "update_foo" [] [("name", VStr "a"); ("foo_id", VInt 1)] in
  calls (snd (handle_http_v3 g the_handler [] [("foo_id", VInt 1)] update_foo
                None st0)) = calls st0 ++ [c]
  /\ forall k, k ∈ keys (call_kwargs c) ->
               k ∈ all (_doctor_params update_foo)
               \/ k ∈ keys [("foo_id", VInt 1)].
Proof.
  split; [reflexivity |].
  apply (only_known_names_reach_logic show limit
           (globals_of (request_of "application/json" "PUT"
                          [("name", VStr "a"); ("color", VStr "red")] []))
           the_handler [] [("foo_id", VInt 1)] update_foo None st0).
  reflexivity.
Defined.

Lemma required_names_run :
  let g := globals_of (request_of "application/json" "PUT"
                         [("name", VStr "a"); ("color", VStr "red")] []) in
  let c := Call "update_foo" [] [("name", VStr "a"); ("foo_id", VInt 1)] in
  calls (snd (handle_http_v3 g the_handler [] [("foo_id", VInt 1)] update_foo
                None st0)) = calls st0 ++ [c]
  /\ forall r, r ∈ required (_doctor_params update_foo) ->
               r ∈ keys (call_kwargs c).
Proof.
  split; [reflexivity |].
  apply (required_names_reach_logic show limit
           (globals_of (request_of "application/json" "PUT"
                          [("name", VStr "a"); ("color", VStr "red")] []))
           the_handler [] [("foo_id", VInt 1)] update_foo None st0).
  reflexivity.
Defined.

(** A GET for [get_foo] with an age out of range. *)
Lemma coercion_failure_run :
  let g := globals_of (request_of "text/plain" "GET" []
                         [("name", VStr "a"); ("age", VInt 200)]) in
  let e := type_error "Must be between 1 and 120." in
  merged_v3 g [] get_foo = [("name", VStr "a")] ++ ("age", VInt 200) :: []
  /\ handle_http_v3 g the_handler [] [] get_foo None st0
     = (Raise (HTTP400Exception (inl e) (getattr_errors e)), st0).
Proof.
  split; [reflexivity |].
  apply (coercion_failure_is_bad_request show limit
           (globals_of (request_of "text/plain" "GET" []
                          [("name", VStr "a"); ("age", VInt 200)]))
           the_handler [] [] get_foo None st0
           [("name", VStr "a")] "age" (VInt 200) []
           (mkParameter (Some Age) None) Age
           (type_error "Must be between 1 and 120."));
    try reflexivity.
  constructor; [| constructor].
  exists (VStr "a"), (mkParameter (Some Name) None), Name. by repeat split.
Defined.

(** A POST for [create_foo] on a route that captures a foo id. *)
Lemma undeclared_keyword_run :
  let g := globals_of (request_of "application/json" "POST"
                         [("name", VStr "a")] []) in
  "foo_id" ∈ keys (merged_v3 g [("foo_id", VInt 1)] create_foo)
  /\ dict_get "foo_id" (parameters (_doctor_signature create_foo)) = None
  /\ (exists e st',
        handle_http_v3 g the_handler [] [("foo_id", VInt 1)] create_foo None
          st0 = (Raise e, st')
        /\ calls st' = calls st0)
  /\ handle_http_v3 g the_handler [] [("foo_id", VInt 1)] create_foo None st0
     = (Raise (HTTP500Exception (inr "Uncaught error in logic function")),
        State [LogException (Exc KeyError "foo_id" None)] []).
Proof.
  assert ("foo_id"
          ∈ keys (merged_v3
                    (globals_of (request_of "application/json" "POST"
                                   [("name", VStr "a")] []))
                    [("foo_id", VInt 1)] create_foo)) as Hin.
  { simpl. right. left. }
  split; [exact Hin |].
  split; [reflexivity |].
  split; [| reflexivity].
  exact (undeclared_keyword_fails_before_logic show limit
           (globals_of (request_of "application/json" "POST"
                          [("name", VStr "a")] []))
           the_handler [] [("foo_id", VInt 1)] create_foo None st0 "foo_id"
           Hin eq_refl).
Defined.

(** [get_foos] under the debug flag: the rejected response becomes a
    400. *)
Lemma response_validation_failure_run :
  let g := debug_globals (request_of "text/plain" "GET" [] []) in
  let e := type_error "Must be a string." in
  should_raise_response_validation_errors g = true
  /\ handle_http_v3 g the_handler [] [] get_foos None st0
     = (Raise (HTTP400Exception (inl e) None),
        State [LogWarning "GET" "/foo" "<int..." e] [Call "get_foos" [] []]).
Proof.
  split; [reflexivity |].
  by rewrite (response_validation_failure_v3 show limit
                (debug_globals (request_of "text/plain" "GET" [] []))
                the_handler [] [] get_foos None st0 [] (Raw (VInt 7)) Foo
                (type_error "Must be a string.")).
Defined.

Lemma response_validation_failure_http_run :
  let g := globals_of (request_of "text/plain" "GET" [] []) in
  let e := Exc SchemaValidationError "7 is not of type string"
             (Some (VDict [("response", VStr "not a string")])) in
  handle_http g refusing_validator the_handler [] [] get_foos VNone None
    (Some tt) None st0
  = (Raise (HTTP400Exception (inl e)
              (Some (VDict [("response", VStr "not a string")]))),
     State [LogWarning "GET" "/foo" "<int..." e] [Call "get_foos" [] []]).
Proof.
  cbv zeta.
  by rewrite (response_validation_failure_http show limit unit exec_all
                (globals_of (request_of "text/plain" "GET" [] []))
                refusing_validator the_handler [] [] get_foos VNone None tt
                None st0 [] (Raw (VInt 7))
                (Exc SchemaValidationError "7 is not of type string"
                   (Some (VDict [("response", VStr "not a string")])))).
Defined.

(** A logic function that raises the 404 of [doctor/flask.py] itself. *)
Lemma http_exception_of_logic_run :
  let g := globals_of (request_of "text/plain" "GET" [] []) in
  let e := HTTP404Exception (inr "no such foo") in
  body_v3 g [] [] (failing e) st0 = (Raise e, State [] [Call "failing" [] []])
  /\ handle_http_v3 g the_handler [] [] (failing e) None st0
     = (Raise (HTTP500Exception (inr "Uncaught error in logic function")),
        State [LogException e] [Call "failing" [] []]).
Proof.
  split; [reflexivity |].
  exact (proj1 (http_exception_of_logic_becomes_500 show limit unit
                  exec_all)
           (globals_of (request_of "text/plain" "GET" [] []))
           the_handler [] [] (failing (HTTP404Exception (inr "no such foo")))
           None st0 HTTP404 (inr "no such foo") None
           (State [] [Call "failing" [] []]) eq_refl eq_refl eq_refl).
Defined.

Lemma only_http_exceptions_run :
  let g := globals_of (request_of "text/plain" "GET" [] []) in
  let e := Exc (PyClass "ValueError" [Exception]) "boom" None in
  handle_http_v3 g the_handler [] [] (failing e) (Some []) st0
  = (Raise (HTTP500Exception (inr "Uncaught error in logic function")),
     State [LogException e] [Call "failing" [] []])
  /\ ((exists c d o,
         HTTP500Exception (inr "Uncaught error in logic function")
         = SchematicHTTP c d o)
      \/ isinstance (HTTP500Exception
                       (inr "Uncaught error in logic function")) Exception
         = false).
Proof.
  split; [reflexivity |].
  apply (proj1 (only_http_exceptions_leave show limit unit exec_all)
           (globals_of (request_of "text/plain" "GET" [] []))
           the_handler [] [] (failing (Exc (PyClass "ValueError" [Exception])
                                         "boom" None))
           (Some []) st0 _
           (State [LogException (Exc (PyClass "ValueError" [Exception])
                                   "boom" None)]
              [Call "failing" [] []]));
    [reflexivity | by right | reflexivity].
Defined.

(** A dispatch of [create_foo] that returns. *)
Lemma single_attempt_run :
  let g := globals_of (request_of "application/json" "POST"
                         [("name", VStr "a")] []) in
  let out := handle_http_v3 g the_handler [] [] create_foo None st0 in
  out = (Ok (Reply2 (VStr "") 201),
         State [] [Call "create_foo" [] [("name", VStr "a")]])
  /\ exists cs new, adds st0 out cs new /\ single_attempt out cs new.
Proof.
  split; [reflexivity |].
  apply (proj1 (dispatch_is_a_single_attempt show limit unit exec_all)).
Defined.

(** A query string that the parser of the schema refuses, and a document
    that the request validator refuses. *)
Lemma refused_request_run :
  let g := globals_of (request_of "text/plain" "GET" []
                         [("age", VStr "x")]) in
  let e := Exc ParseError "not a number" None in
  let rs := VDict [("type", VStr "object")] in
  truthy rs = true
  /\ handle_http g refusing_parser the_handler [] [] get_foo rs None None
       None st0
     = (Raise (HTTP400Exception (inl e) None), st0).
Proof.
  split; [reflexivity |].
  apply (proj1 (refused_request_is_bad_request show limit unit exec_all
                  (globals_of (request_of "text/plain" "GET" []
                                 [("age", VStr "x")]))
                  refusing_parser the_handler [] [] get_foo
                  (VDict [("type", VStr "object")]) None None None st0
                  (Exc ParseError "not a number" None) eq_refl));
    reflexivity.
Defined.

(** A binding with no parameter still reads the JSON body. *)
Lemma created_schema_run :
  let g := globals_of (request_of "application/json" "POST"
                         [("color", VStr "red")] []) in
  exists rs,
    resource._create_request_schema (Ok (VDict [])) [] None = Ok rs
    /\ truthy rs = true
    /\ calls (snd (handle_http g no_schema the_handler [] [] get_wrapped rs
                     None None None st0))
       = [Call "get_wrapped" [] [("color", VStr "red")]].
Proof.
  eexists. split; [reflexivity |].
  destruct (created_schema_reads_the_request show limit unit exec_all
              (globals_of (request_of "application/json" "POST"
                             [("color", VStr "red")] []))
              no_schema the_handler [] [] get_wrapped (Ok (VDict [])) []
              None _ None None st0 eq_refl) as (Htruthy & Hjson & _).
  split; [exact Htruthy |].
  exact (Hjson eq_refl).
Defined.

End MoreRuns.

Section MoreRouteRuns.
Import flask routing resource samples more_samples.

Local Abbreviation create_routes := (create_routes show limit unit exec_all).
Local Abbreviation create_http_method :=
  (create_http_method show limit unit exec_all).

(** The route that declares [get] for [get_foos] and then for [get_foo]. *)
Lemma last_binding_run :
  exists h,
    create_routes [twice_get] !! 0 = Some ("^/foo/?$", Some h)
    /\ dict_get "get" (namespace h)
       = Some (AFunc (create_http_method get_foo "get")).
Proof.
  eexists. split; [reflexivity |].
  exact (last_binding_of_a_verb_wins show limit unit exec_all [twice_get] 0
           twice_get _
           [mkHTTPMethod Get get_foos; mkHTTPMethod Post create_foo] []
           (mkHTTPMethod Get get_foo) eq_refl eq_refl eq_refl
           (fun m' H => match not_elem_of_nil m' H with end)).
Defined.

Lemma handler_namespace_run :
  exists h,
    create_routes [twice_get] !! 0 = Some ("^/foo/?$", Some h)
    /\ dict_get "__name__" (namespace h) = Some (AStr (Some "get_foos"))
    /\ dict_get "_doctor_heading" (namespace h) = Some (AStr (Some "Foo"))
    /\ keys (namespace h) = ["__name__"; "_doctor_heading"; "get"; "post"].
Proof.
  eexists. split; [reflexivity |].
  destruct (handler_namespace_contents show limit unit exec_all [twice_get]
              0 twice_get _ eq_refl eq_refl) as (Hname & Hheading & _).
  split; [exact Hname |].
  split; [exact Hheading | reflexivity].
Defined.


Lemma get_annotation_cycle_run :
  next objects 3 = Ok (Some 3)
  /\ forall fuel, get_annotation objects fuel (Some 3) = None.
Proof.
  split; [reflexivity |].
  apply (get_annotation_loops_on_a_cycle objects (fun r => r = 3));
    [| reflexivity].
  intros r ->. split; [reflexivity |]. by exists 3.
Defined.

(** [get] and [GET] are annotated alike. *)
Lemma annotation_titles_run :
  upper "get" = upper "GET"
  /\ ResourceAnnotation_init get_foos "get" None
     = ResourceAnnotation_init get_foos "GET" None
  /\ title (ResourceAnnotation_init get_foos "get" None) = Some "Retrieve"
  /\ title (ResourceAnnotation_init get_foos "patch" None) = None.
Proof.
  split; [reflexivity |].
  split; [| split; reflexivity].
  exact (proj1 (proj2 annotation_titles) get_foos "get" "GET" None eq_refl).
Defined.

End MoreRouteRuns.

Section BindingRuns.
Import binding samples more_samples.

(** [post(create_foo, title='Create Foo')] on a function that nothing has
    touched, and [get(get_foos)] on one that already carries a signature and
    a parameter set: the signature that [inspect] would give is not used. *)
Lemma bound_function_run :
  (let m := fst (post all_required 0 None (Some "Create Foo") functions) in
   let h' := snd (post all_required 0 None (Some "Create Foo") functions) in
   method m = "post" /\ logic m = 0
   /\ as_logic_fn (h' 0)
      = Some (mkLogic "create_foo" (mkParams ["name"] ["name"] [] ["name"])
                create_foo_signature None (Some "Create Foo")
                (f_call fresh_function))
   /\ forall r', r' <> 0 -> h' r' = functions r')
  /\ (let m := fst (get all_required 1 (Some [KeyError]) None functions) in
      let h' := snd (get all_required 1 (Some [KeyError]) None functions) in
      method m = "get" /\ logic m = 1
      /\ as_logic_fn (h' 1)
         = Some (mkLogic "get_foos" (_doctor_params get_foos)
                   (_doctor_signature get_foos) (Some [KeyError]) None
                   (f_call annotated_function))
      /\ forall r', r' <> 1 -> h' r' = functions r').
Proof.
  split.
  - exact (bound_function_has_its_attributes all_required "post" 0 None
             (Some "Create Foo") functions).
  - exact (bound_function_has_its_attributes all_required "get" 1
             (Some [KeyError]) None functions).
Defined.

(** [create_foo] bound to [post] and then to [put]. *)
Lemma rebinding_run :
  let b1 := post all_required 0 (Some [KeyError]) (Some "Create Foo")
              functions in
  let b2 := put all_required 0 None None (snd b1) in
  exists lg1 lg2,
    as_logic_fn (snd b1 (logic (fst b1))) = Some lg1
    /\ as_logic_fn (snd b2 (logic (fst b2))) = Some lg2
    /\ as_logic_fn (snd b2 (logic (fst b1))) = Some lg2
    /\ _doctor_signature lg2 = _doctor_signature lg1
    /\ _doctor_params lg2 = _doctor_params lg1
    /\ _doctor_allowed_exceptions lg2 = None
    /\ _doctor_title lg2 = None
    /\ _doctor_allowed_exceptions lg1 = Some [KeyError]
    /\ forall r', r' <> 0 -> snd b2 r' = functions r'.
Proof.
  exact (rebinding_shares_the_function all_required "post" "put" 0
           (Some [KeyError]) None (Some "Create Foo") None functions).
Defined.

(** The request schema for the parameters [name] and [age], of which
    [name] is required. *)
Lemma request_schema_run :
  resource._create_request_schema (Ok (VDict [])) ["name"; "age"]
    (Some ["name"])
  = Ok (VDict
          [("additionalProperties", VBool true);
           ("definitions", VDict []);
           ("properties",
            VDict [("name", VDict [("$ref", VStr "#/definitions/name")]);
                   ("age", VDict [("$ref", VStr "#/definitions/age")])]);
           ("required", VList [VStr "name"]);
           ("type", VStr "object")])
  /\ exists d props,
      resource._create_request_schema (Ok (VDict [])) ["name"; "age"]
        (Some ["name"])
      = Ok (VDict d)
      /\ dict_get "additionalProperties" d = Some (VBool true)
      /\ dict_get "definitions" d = Some (VDict [])
      /\ dict_get "type" d = Some (VStr "object")
      /\ dict_get "required" d = Some (VList [VStr "name"])
      /\ dict_get "properties" d = Some (VDict props)
      /\ forall p,
          dict_get p props
          = if bool_decide (p ∈ ["name"; "age"])
            then Some (VDict [("$ref", VStr ("#/definitions/" +:+ p))])
            else None.
Proof.
  split; [reflexivity |].
  exact (request_schema_contents (VDict []) ["name"; "age"] (Some ["name"])).
Defined.

End BindingRuns.
